(** * ahkab.printing: the printing module of the simulator

    A shallow embedding of [ahkab/printing.py] and the properties of its
    console, warning and error helpers.

    The module writes to two process-wide streams and, inside
    [print_info_line], changes numpy's global print options for the
    duration of a [with] block.  Python code is embedded in a small monad
    that threads the state of the process (both streams and the numpy
    print options) and carries exceptions; what was written before an
    exception was raised stays written.

    The module runs under Python 2 and under Python 3 and asks
    [py3compat.PY2] which one it is; the embedding takes that flag, the
    constants of [options] and what Python makes of objects other than
    [None], booleans, integers and strings ([str()], the ['%g'] conversion,
    the comparison with a string, the addition to a string, the truth
    value) as parameters.

    Outside the embedding: the encoding of text (strings are sequences of
    characters, [codecs] wrappers do not change them), failures of the
    streams themselves (both streams accept every write), [str()] methods
    that raise ([str()] of every object returns a text), the file system
    ([open_utf8]) and the [tabulate] package ([table], [table_print]). *)

From Stdlib Require Import String Ascii ZArith List Bool Lia.
From Stdlib Require Import DecimalString Sorted Permutation.
Import ListNotations.

Local Open Scope Z_scope.
Local Open Scope list_scope.
Local Open Scope string_scope.

(** ** Characters that the source writes with escapes *)

Definition nl : string := String "010"%char EmptyString.
Definition tab : string := String "009"%char EmptyString.
Definition dquote : string := String "034"%char EmptyString.

(** ** Python values *)

(** The objects the module is handed: [None], booleans, integers, strings,
    and any other object (a float, a sympy symbol or expression, a numpy
    array), known by an identifier.  What [str()], ['%g'] and truth testing
    make of such an object is given by the environment (see
    [Section Printing]). *)
Inductive value : Type :=
| VNone
| VBool (b : bool)
| VInt (n : Z)
| VStr (s : string)
| VObj (id : nat).

Inductive exn : Type :=
| KeyError (key : value)
| TypeError
| ValueError
| OverflowError
| OtherError (tag : nat).

(** Equality of the keys of a dict.  Python's [==] and hashing identify
    [True] with [1] and [False] with [0]; the other objects that can be keys
    are hashable, and are taken to be equal only to themselves.  What [==]
    does on the values of a dict is [py_eq_str], below. *)
Definition key_norm (v : value) : value :=
  match v with
  | VBool b => VInt (Z.b2z b)
  | _ => v
  end.

Definition value_eqb (a b : value) : bool :=
  match key_norm a, key_norm b with
  | VNone, VNone => true
  | VInt m, VInt n => Z.eqb m n
  | VStr s, VStr t => String.eqb s t
  | VObj i, VObj j => Nat.eqb i j
  | _, _ => false
  end.

(** [v is None] *)
Definition is_None (v : value) : bool :=
  match v with
  | VNone => true
  | _ => false
  end.

(** [str(n)] for an integer. *)
Definition str_int (n : Z) : string := NilZero.string_of_int (Z.to_int n).

(** [sep.join(l)] *)
Fixpoint join (sep : string) (l : list string) : string :=
  match l with
  | [] => ""
  | [s] => s
  | s :: rest => s ++ sep ++ join sep rest
  end.

(** The text of a sequence of writes. *)
Definition text_of (writes : list string) : string :=
  fold_right String.append "" writes.

(** A dict, in iteration order. *)
Definition dict : Type := list (value * value).

Definition dict_keys (d : dict) : list value := map fst d.

Fixpoint dict_get (d : dict) (k : value) : option value :=
  match d with
  | [] => None
  | (k', v) :: rest => if value_eqb k' k then Some v else dict_get rest k
  end.

(** ** numpy's print options

    [numpy.get_printoptions()] returns the current options as a dict and
    [numpy.set_printoptions] updates the options that are passed and
    not [None]; the formatter is the exception, it is assigned on every
    call.  The arguments are taken to be options that numpy accepts. *)
Record printopts : Type := mkPrintopts {
  precision : Z;
  threshold : Z;
  edgeitems : Z;
  linewidth : Z;
  suppress : bool;
  nanstr : string;
  infstr : string;
  formatter : option nat
}.

Record printopts_kwargs : Type := mkKwargs {
  kw_precision : option Z;
  kw_threshold : option Z;
  kw_edgeitems : option Z;
  kw_linewidth : option Z;
  kw_suppress : option bool;
  kw_nanstr : option string;
  kw_infstr : option string;
  kw_formatter : option nat
}.

Definition or_current {A : Type} (given : option A) (current : A) : A :=
  match given with
  | Some a => a
  | None => current
  end.

Definition set_options (kw : printopts_kwargs) (o : printopts) : printopts :=
  {| precision := or_current (kw_precision kw) (precision o);
     threshold := or_current (kw_threshold kw) (threshold o);
     edgeitems := or_current (kw_edgeitems kw) (edgeitems o);
     linewidth := or_current (kw_linewidth kw) (linewidth o);
     suppress := or_current (kw_suppress kw) (suppress o);
     nanstr := or_current (kw_nanstr kw) (nanstr o);
     infstr := or_current (kw_infstr kw) (infstr o);
     formatter := kw_formatter kw |}.

(** The keyword arguments that unpacking [original], a dict returned by
    [get_printoptions], passes. *)
Definition as_kwargs (o : printopts) : printopts_kwargs :=
  {| kw_precision := Some (precision o);
     kw_threshold := Some (threshold o);
     kw_edgeitems := Some (edgeitems o);
     kw_linewidth := Some (linewidth o);
     kw_suppress := Some (suppress o);
     kw_nanstr := Some (nanstr o);
     kw_infstr := Some (infstr o);
     kw_formatter := formatter o |}.

(** ** The state of the process and the monad of Python code *)

Record world : Type := mkWorld {
  stdout : string;
  stderr : string;
  np_options : printopts
}.

Inductive outcome (A : Type) : Type :=
| Returned (a : A)
| Raised (e : exn).

Arguments Returned {A} a.
Arguments Raised {A} e.

Definition M (A : Type) : Type := world -> outcome A * world.

Definition ret {A : Type} (a : A) : M A := fun w => (Returned a, w).

Definition raise {A : Type} (e : exn) : M A := fun w => (Raised e, w).

Definition bind {A B : Type} (m : M A) (k : A -> M B) : M B :=
  fun w =>
    match m w with
    | (Returned a, w') => k a w'
    | (Raised e, w') => (Raised e, w')
    end.

Declare Scope py_scope.
Delimit Scope py_scope with py.
Notation "x <- m ;; k" := (bind m (fun x => k))
  (at level 61, m at next level, right associativity) : py_scope.
Notation "m ;; k" := (bind m (fun _ => k))
  (at level 61, right associativity) : py_scope.
Local Open Scope py_scope.

(** [for x in l: body(x)] *)
Fixpoint for_each {A : Type} (l : list A) (body : A -> M unit) : M unit :=
  match l with
  | [] => ret tt
  | x :: rest => body x ;; for_each rest body
  end.

Definition result_of {A : Type} (m : M A) (w : world) : outcome A := fst (m w).
Definition world_after {A : Type} (m : M A) (w : world) : world := snd (m w).

Definition returns_normally {A : Type} (m : M A) (w : world) : bool :=
  match result_of m w with
  | Returned _ => true
  | Raised _ => false
  end.

(** The process with the numpy print options replaced by [o]. *)
Definition with_options (o : printopts) (w : world) : world :=
  {| stdout := stdout w; stderr := stderr w; np_options := o |}.

(** ** The streams *)

Definition stdout_write (s : string) : M unit :=
  fun w => (Returned tt,
            {| stdout := stdout w ++ s;
               stderr := stderr w;
               np_options := np_options w |}).

Definition stderr_write (s : string) : M unit :=
  fun w => (Returned tt,
            {| stdout := stdout w;
               stderr := stderr w ++ s;
               np_options := np_options w |}).

(** [sys.stdout.flush()] *)
Definition stdout_flush : M unit := ret tt.

(** [d[k]] *)
Definition getitem (d : dict) (k : value) : M value :=
  match dict_get d k with
  | Some v => ret v
  | None => raise (KeyError k)
  end.

Definition np_get_printoptions : M printopts :=
  fun w => (Returned (np_options w), w).

Definition np_set_printoptions (kw : printopts_kwargs) : M unit :=
  fun w => (Returned tt,
            {| stdout := stdout w;
               stderr := stderr w;
               np_options := set_options kw (np_options w) |}).

(** [with cm: body] for a context manager that [contextlib.contextmanager]
    makes of a generator [a = enter; yield; leave(a)] whose [yield] is not
    inside a [try]: an exception of the body is thrown into the generator at
    the [yield], nothing there catches it, and it leaves the [with]
    statement without the code after the [yield] having run. *)
Definition with_generator {A B : Type}
    (enter : M A) (leave : A -> M unit) (body : M B) : M B :=
  fun w =>
    match enter w with
    | (Raised e, w1) => (Raised e, w1)
    | (Returned a, w1) =>
        match body w1 with
        | (Raised e, w2) => (Raised e, w2)
        | (Returned b, w2) =>
            match leave a w2 with
            | (Raised e, w3) => (Raised e, w3)
            | (Returned _, w3) => (Returned b, w3)
            end
        end
    end.

(** The generator [printoptions]: the part before the [yield] and the part
    after it.  Positional and keyword arguments are both passed on to
    [numpy.set_printoptions]; they are embedded as one record. *)
Definition printoptions_enter (kw : printopts_kwargs) : M printopts :=
  original <- np_get_printoptions ;;
  np_set_printoptions kw ;;
  ret original.

Definition printoptions_leave (original : printopts) : M unit :=
  np_set_printoptions (as_kwargs original).

Definition printoptions {B : Type} (kw : printopts_kwargs) (body : M B) : M B :=
  with_generator (printoptions_enter kw) printoptions_leave body.

(** ** Sorting with a comparison function

    Python 2's [list.sort(cmp)] is a stable sort that places [x] before [y]
    when [cmp(x, y) < 0].  The result of a stable sort is determined by the
    list and the comparison; it is computed here by insertion. *)
Section Sorting.
Context {A : Type}.
Variable cmp : A -> A -> comparison.

Fixpoint insert_cmp (a : A) (l : list A) : list A :=
  match l with
  | [] => [a]
  | y :: rest =>
      match cmp a y with
      | Gt => y :: insert_cmp a rest
      | _ => a :: l
      end
  end.

Fixpoint sort_cmp (l : list A) : list A :=
  match l with
  | [] => []
  | a :: rest => insert_cmp a (sort_cmp rest)
  end.

(** The comparison does not place [a] after [b]. *)
Definition not_after (a b : A) : Prop := cmp a b <> Gt.
End Sorting.

(** ** A concrete process, to run the module on

    numpy's default print options, empty streams, and an environment in which
    every other object prints as [<object>], is not a number and is true. *)
Definition default_printopts : printopts :=
  {| precision := 8;
     threshold := 1000;
     edgeitems := 3;
     linewidth := 75;
     suppress := false;
     nanstr := "nan";
     infstr := "inf";
     formatter := None |}.

Definition fresh_world : world :=
  {| stdout := ""; stderr := ""; np_options := default_printopts |}.

Definition sample_obj_str (o : printopts) (i : nat) : string := "<object>".
Definition sample_obj_format_g (i : nat) : exn + string := inl TypeError.
Definition sample_obj_truth (i : nat) : bool := true.

(** ['%g'] of an integer is ['%g'] of [float(n)].  [float_of_int n] is the
    integer that [float(n)] is worth, the nearest one that 53 bits hold, ties
    to the even one; there is none from [2 ^ 1024] on, and Python raises
    [OverflowError]. *)
Definition float_of_int (n : Z) : option Z :=
  let a := Z.abs n in
  let bits := Z.log2 a + 1 in
  if Z.leb bits 53 then Some n
  else
    let shift := bits - 53 in
    let q := Z.shiftr a shift in
    let r := a - Z.shiftl q shift in
    let half := Z.shiftl 1 (shift - 1) in
    let q' := if Z.ltb half r || (Z.eqb r half && Z.odd q) then q + 1 else q in
    let v := Z.shiftl q' shift in
    if Z.leb (2 ^ 1024) v then None else Some (Z.sgn n * v).

Fixpoint strip_trailing_zeros (s : string) : string :=
  match s with
  | EmptyString => EmptyString
  | String c rest =>
      let rest' := strip_trailing_zeros rest in
      if String.eqb rest' "" && Ascii.eqb c "0"%char then EmptyString
      else String c rest'
  end.

(** ['%g'] of a float worth the integer [a], [0 <= a]: the digits of [a] when
    there are six or fewer, else six significant digits, ties to the even
    digit, trailing zeros dropped, and an exponent of two digits or more. *)
Definition format_g_nonneg (a : Z) : string :=
  let k := Z.of_nat (String.length (str_int a)) in
  if Z.leb k 6 then str_int a
  else
    let p := 10 ^ (k - 6) in
    let m := a / p in
    let r := a mod p in
    let m' := if Z.ltb p (2 * r) || (Z.eqb (2 * r) p && Z.odd m)
              then m + 1 else m in
    let '(digits, e) :=
      if Z.eqb m' 1000000 then (100000, k) else (m', k - 1) in
    let mantissa :=
      match str_int digits with
      | String d rest =>
          match strip_trailing_zeros rest with
          | EmptyString => String d EmptyString
          | rest' => String d ("." ++ rest')
          end
      | EmptyString => EmptyString
      end in
    mantissa ++ "e+" ++ (if Z.ltb e 10 then "0" else "") ++ str_int e.

Definition sample_int_format_g (n : Z) : exn + string :=
  match float_of_int n with
  | None => inl OverflowError
  | Some v => inr ((if Z.ltb v 0 then "-" else "") ++ format_g_nonneg (Z.abs v))
  end.

(** Object 0 stands for a numpy array of numbers: compared with a string it
    gives an array, whose truth value [if] cannot take.  Object 1 stands for
    a numpy array of strings: a string can be added to it, the sum is
    another array, object 2.  The other objects equal no string and take no
    string on their left. *)
Definition sample_obj_eq_str (i : nat) (s : string) : exn + bool :=
  match i with
  | O => inl ValueError
  | _ => inr false
  end.

Definition sample_obj_radd (i : nat) (s : string) : exn + value :=
  match i with
  | 1%nat => inr (VObj 2)
  | _ => inl TypeError
  end.

(** A transient analysis without its [method] entry. *)
Definition tran_without_method : dict :=
  [ (VStr "type", VStr "tran");
    (VStr "tstep", VInt 1);
    (VStr "tstop", VInt 10);
    (VStr "tstart", VInt 0) ].

(** A transient analysis as the netlist parser builds it. *)
Definition tran_complete : dict :=
  (tran_without_method ++ [ (VStr "method", VNone) ])%list.

(** [precision=3] *)
Definition precision_3 : printopts_kwargs :=
  {| kw_precision := Some 3;
     kw_threshold := None;
     kw_edgeitems := None;
     kw_linewidth := None;
     kw_suppress := None;
     kw_nanstr := None;
     kw_infstr := None;
     kw_formatter := None |}.

Definition symbolic_sample : dict :=
  [ (VStr "b", VInt 2); (VStr "a", VInt 1) ].

(** The stream that [print_to_stdout] selects, and the other one. *)
Definition selected (print_to_stdout : bool) (w : world) : string :=
  if print_to_stdout then stdout w else stderr w.

Definition unselected (print_to_stdout : bool) (w : world) : string :=
  if print_to_stdout then stderr w else stdout w.

(** ** The module *)

Section Printing.

(** [py3compat.PY2]: whether the interpreter is Python 2. *)
Variable PY2 : bool.

(** The constants of the [options] module that this module reads. *)
Variable options_print_precision : Z.
Variable options_print_suppress : bool.
Variables options_ver options_vea options_ier options_iea : value.

(** What Python makes of the other objects: the text [str()] returns, which
    for a numpy array depends on the print options in force; the text of
    the ['%g'] conversion, or the exception it raises ([TypeError] for an
    object that is not a number, [OverflowError] for an integer that no
    float holds); the truth value. *)
Variable obj_str : printopts -> nat -> string.
Variable obj_format_g : nat -> exn + string.
Variable int_format_g : Z -> exn + string.

(** What [obj == s] is worth under [if], for a string [s]: true, false, or
    the exception that the comparison or the truth test raises (a numpy
    array compares elementwise, and [if] raises [ValueError] on the array
    of the results).  And what [s + obj] is: the value that the [__radd__]
    of the object returns, or the exception raised ([TypeError] when there
    is no such method). *)
Variable obj_eq_str : nat -> string -> exn + bool.
Variable obj_radd : nat -> string -> exn + value.

Variable obj_truth : nat -> bool.

(** [str()] of a list, and the items of an object that is a sequence, or the
    exception that [len()] and indexing raise for it. *)
Variable list_str : printopts -> list value -> string.
Variable obj_items : nat -> exn + list value.

(** [str(v)] under the print options [o]. *)
Definition py_str (o : printopts) (v : value) : string :=
  match v with
  | VNone => "None"
  | VBool true => "True"
  | VBool false => "False"
  | VInt n => str_int n
  | VStr s => s
  | VObj i => obj_str o i
  end.

(** The truth value of [v], as [if v:] tests it. *)
Definition truthy (v : value) : bool :=
  match v with
  | VNone => false
  | VBool b => b
  | VInt n => negb (Z.eqb n 0)
  | VStr s => negb (String.eqb s "")
  | VObj i => obj_truth i
  end.

(** ['%g' % v]: a real number is required. *)
Definition format_g (v : value) : exn + string :=
  match v with
  | VNone => inl TypeError
  | VStr _ => inl TypeError
  | VBool b => int_format_g (Z.b2z b)
  | VInt n => int_format_g n
  | VObj i => obj_format_g i
  end.

Definition str (v : value) : M string :=
  fun w => (Returned (py_str (np_options w) v), w).

(** [print(a, b, ..., end=end_)] *)
Definition py_print (args : list value) (end_ : string) : M unit :=
  fun w =>
    stdout_write (join " " (map (py_str (np_options w)) args) ++ end_) w.

(** [v == s] as [if] takes it, for a string literal [s]. *)
Definition py_eq_str (v : value) (s : string) : exn + bool :=
  match v with
  | VStr t => inr (String.eqb t s)
  | VObj i => obj_eq_str i s
  | _ => inr false
  end.

Definition eq_str (v : value) (s : string) : M bool :=
  match py_eq_str v s with
  | inr b => ret b
  | inl e => raise e
  end.

(** [a + b] where [a] is a string: the concatenation for a string [b], what
    its [__radd__] makes of it for another object, [TypeError] for [None], a
    boolean or an integer. *)
Definition str_add (a : string) (b : value) : M value :=
  match b with
  | VStr s => ret (VStr (a ++ s))
  | VObj i =>
      match obj_radd i a with
      | inr v => ret v
      | inl e => raise e
      end
  | _ => raise TypeError
  end.

(** ['%(key)s' % d] and ['%(key)g' % d] *)
Definition percent_s (d : dict) (key : string) : M string :=
  v <- getitem d (VStr key) ;;
  str v.

Definition percent_g (d : dict) (key : string) : M string :=
  v <- getitem d (VStr key) ;;
  match format_g v with
  | inr s => ret s
  | inl e => raise e
  end.

(** [keys.sort(lambda x, y: cmp(str(x), str(y)))], the comparison passed as
    a positional argument.  Python 2 sorts with it.  Python 3's [list.sort]
    takes keyword arguments only and raises [TypeError] before anything is
    compared. *)
Definition sort_by_cmp_of_str (keys : list value) : M (list value) :=
  fun w =>
    if PY2
    then (Returned
            (sort_cmp (fun x y => String.compare (py_str (np_options w) x)
                                                 (py_str (np_options w) y))
                      keys), w)
    else (Raised TypeError, w).

Definition print_analysis (an : dict) : M value :=
  t <- getitem an (VStr "type") ;;
  is_op <- eq_str t "op" ;;
  if is_op then
    py_print [VStr ".op"] "" ;;
    for_each (dict_keys an) (fun x =>
      if value_eqb x (VStr "type") || value_eqb x (VStr "outfile")
         || value_eqb x (VStr "verbose")
      then ret tt
      else
        v <- getitem an x ;;
        sx <- str x ;;
        sv <- str v ;;
        py_print [VStr (" " ++ sx ++ "=" ++ sv)] "") ;;
    py_print [VStr ""] nl ;;
    ret VNone
  else
  t <- getitem an (VStr "type") ;;
  is_dc <- eq_str t "dc" ;;
  if is_dc then
    source <- percent_s an "source" ;;
    start <- percent_g an "start" ;;
    stop <- percent_g an "stop" ;;
    step <- percent_g an "step" ;;
    sweep_type <- percent_s an "sweep_type" ;;
    py_print [VStr (".dc " ++ source ++ " start=" ++ start ++ " stop=" ++ stop
                    ++ " step=" ++ step ++ " type=" ++ sweep_type)] nl ;;
    ret VNone
  else
  t <- getitem an (VStr "type") ;;
  is_tran <- eq_str t "tran" ;;
  if is_tran then
    tstep <- getitem an (VStr "tstep") ;;
    s1 <- str tstep ;;
    tstop <- getitem an (VStr "tstop") ;;
    s2 <- str tstop ;;
    tstart <- getitem an (VStr "tstart") ;;
    s3 <- str tstart ;;
    stdout_write (".tran tstep=" ++ s1 ++ " tstop=" ++ s2 ++ " tstart=" ++ s3) ;;
    method <- getitem an (VStr "method") ;;
    (if negb (is_None method) then
       method <- getitem an (VStr "method") ;;
       s <- str_add " method=" method ;;
       py_print [s] nl
     else
       py_print [VStr ""] nl) ;;
    ret VNone
  else
  t <- getitem an (VStr "type") ;;
  is_shooting <- eq_str t "shooting" ;;
  if is_shooting then
    period <- getitem an (VStr "period") ;;
    s1 <- str period ;;
    method <- getitem an (VStr "method") ;;
    s2 <- str method ;;
    stdout_write (".shooting period=" ++ s1 ++ " method=" ++ s2) ;;
    points <- getitem an (VStr "points") ;;
    (if negb (is_None points) then
       points <- getitem an (VStr "points") ;;
       s <- str points ;;
       stdout_write (" points=" ++ s)
     else ret tt) ;;
    step <- getitem an (VStr "step") ;;
    (if negb (is_None step) then
       step <- getitem an (VStr "step") ;;
       s <- str step ;;
       stdout_write (" step=" ++ s)
     else ret tt) ;;
    autonomous <- getitem an (VStr "autonomous") ;;
    py_print [VStr " autonomous="; autonomous] nl ;;
    ret VNone
  else
    ret VNone.

Definition print_general_error (description : string) (print_to_stdout : bool)
    : M value :=
  let the_error_message := "E: " ++ description in
  (if print_to_stdout
   then py_print [VStr the_error_message] nl
   else stderr_write (the_error_message ++ nl)) ;;
  ret VNone.

Definition print_warning (description : string) (print_to_stdout : bool)
    : M value :=
  let the_warning_message := "W: " ++ description in
  (if print_to_stdout
   then py_print [VStr the_warning_message] nl
   else stderr_write (the_warning_message ++ nl)) ;;
  ret VNone.

(** [precision=options.print_precision, suppress=options.print_suppress] *)
Definition info_line_kwargs : printopts_kwargs :=
  {| kw_precision := Some options_print_precision;
     kw_threshold := None;
     kw_edgeitems := None;
     kw_linewidth := None;
     kw_suppress := Some options_print_suppress;
     kw_nanstr := None;
     kw_infstr := None;
     kw_formatter := None |}.

Definition print_info_line (msg_relevance_tuple : value * Z) (verbose : Z)
    (print_nl : bool) : M value :=
  let (msg, relevance) := msg_relevance_tuple in
  if verbose >=? relevance then
    printoptions info_line_kwargs
      (if print_nl
       then py_print [msg] nl
       else (py_print [msg] " " ;; stdout_flush)) ;;
    ret VNone
  else
    ret VNone.

Definition print_parse_error (nline : Z) (line : string)
    (print_to_stdout : bool) : M value :=
  print_general_error ("Parse error on line " ++ str_int nline ++ ":")
                      print_to_stdout ;;
  (if print_to_stdout
   then py_print [VStr line] nl
   else stderr_write (line ++ nl)) ;;
  ret VNone.

Definition print_symbolic_results (x : dict) : M value :=
  keys <- sort_by_cmp_of_str (dict_keys x) ;;
  for_each keys (fun key =>
    sk <- str key ;;
    v <- getitem x key ;;
    sv <- str v ;;
    py_print [VStr (sk ++ tab ++ " = " ++ sv)] nl) ;;
  ret VNone.

Definition print_symbolic_equations (eq_list : list value) : M value :=
  py_print [VStr "+--"] nl ;;
  for_each eq_list (fun eq =>
    s <- str eq ;;
    py_print [VStr ("| " ++ s)] nl) ;;
  py_print [VStr "+--"] nl ;;
  ret VNone.

Definition print_result_check (badvars : list value) (verbose : value)
    : M value :=
  (if negb (Nat.eqb (List.length badvars) 0) then
     py_print [VStr "Warning: solution is heavvily dependent on gmin."] nl ;;
     py_print [VStr "Affected variables:"] nl ;;
     for_each badvars (fun bv => py_print [bv] nl)
   else
     if truthy verbose then
       py_print [VStr "Difference check is within margins."] nl ;;
       s1 <- str options_ver ;;
       s2 <- str options_vea ;;
       s3 <- str options_ier ;;
       s4 <- str options_iea ;;
       py_print [VStr ("(Voltage: er=" ++ s1 ++ ", ea=" ++ s2
                       ++ ", Current: er=" ++ s3 ++ ", ea=" ++ s4 ++ ")")] nl
     else ret tt) ;;
  ret VNone.

(** The statements the module runs when it is imported; [LANG] is what
    [os.getenv('LANG')] returns, [None] when the variable is not set.
    Wrapping [sys.stdout] in a UTF-8 writer under Python 2 leaves the text
    of the stream as it is. *)
Definition locale_warning_1 : string :=
  "Locale appears not set! please export LANG=" ++ dquote ++ "en_US.UTF-8"
  ++ dquote ++ " or equivalent, ".

Definition locale_warning_2 : string :=
  "or ahkab's unicode support is broken.".

Definition module_import (LANG : option string) : M unit :=
  (if PY2 then ret tt else ret tt) ;;
  let locale := LANG in
  let not_locale :=
    match locale with
    | None => true
    | Some s => String.eqb s ""
    end in
  if not_locale then
    print_warning locale_warning_1 false ;;
    print_warning locale_warning_2 false ;;
    ret tt
  else
    ret tt.

(** The mappings [print_analysis] reads without an exception: the [type]
    entry can be compared with the names of the analyses, the entries that
    the branch of the analysis type needs are there, and they are of a kind
    that the branch can format. *)
Definition has_key (d : dict) (key : string) : bool :=
  match dict_get d (VStr key) with
  | Some _ => true
  | None => false
  end.

Definition has_number (d : dict) (key : string) : bool :=
  match dict_get d (VStr key) with
  | Some v => match format_g v with inr _ => true | inl _ => false end
  | None => false
  end.

(** A [method] that the [tran] branch can print: [None], a string, or an
    object that takes [" method="] on its left. *)
Definition has_method (d : dict) : bool :=
  match dict_get d (VStr "method") with
  | Some VNone => true
  | Some (VStr _) => true
  | Some (VObj i) =>
      match obj_radd i " method=" with
      | inr _ => true
      | inl _ => false
      end
  | _ => false
  end.

Definition analysis_well_formed (an : dict) : bool :=
  match dict_get an (VStr "type") with
  | None => false
  | Some t =>
      match py_eq_str t "op" with
      | inl _ => false
      | inr true => true
      | inr false =>
      match py_eq_str t "dc" with
      | inl _ => false
      | inr true =>
        has_key an "source" && has_number an "start" && has_number an "stop"
        && has_number an "step" && has_key an "sweep_type"
      | inr false =>
      match py_eq_str t "tran" with
      | inl _ => false
      | inr true =>
        has_key an "tstep" && has_key an "tstop" && has_key an "tstart"
        && has_method an
      | inr false =>
      match py_eq_str t "shooting" with
      | inl _ => false
      | inr true =>
        has_key an "period" && has_key an "method" && has_key an "points"
        && has_key an "step" && has_key an "autonomous"
      | inr false => true
      end end end end
  end.

(** The text of one line of [print_symbolic_results]. *)
Definition symbolic_line (o : printopts) (x : dict) (key : value) : string :=
  py_str o key ++ tab ++ " = "
  ++ match dict_get x key with
     | Some v => py_str o v
     | None => ""
     end
  ++ nl.

(** [a] does not come after [b] in the order of their [str()]. *)
Definition str_le (o : printopts) (a b : value) : Prop :=
  String.compare (py_str o a) (py_str o b) <> Gt.

(** ** Symbolic transfer functions

    [print_symbolic_transfer_functions] takes a mapping whose values are
    mappings themselves, with the entries [gain], [gain0], [poles] and
    [zeros]; an entry is a value or a list of values. *)
Inductive tf_value : Type :=
| TfValue (v : value)
| TfList (items : list value).

Definition tf_dict : Type := list (value * tf_value).
Definition tf_results : Type := list (value * tf_dict).

Fixpoint mapping_get {V : Type} (d : list (value * V)) (k : value) : option V :=
  match d with
  | [] => None
  | (k', v) :: rest => if value_eqb k' k then Some v else mapping_get rest k
  end.

(** [d[k]] *)
Definition mapping_getitem {V : Type} (d : list (value * V)) (k : value) : M V :=
  match mapping_get d k with
  | Some v => ret v
  | None => raise (KeyError k)
  end.

(** [IndexError], among the other exceptions. *)
Definition IndexError : exn := OtherError 0.

(** The items of an entry taken as a sequence: those of a list, the
    characters of a string, what the environment says for another object;
    [None], booleans and integers are no sequences. *)
Definition sequence_items (t : tf_value) : exn + list value :=
  match t with
  | TfList items => inr items
  | TfValue (VStr s) =>
      inr (map (fun c => VStr (String c EmptyString)) (list_ascii_of_string s))
  | TfValue (VObj i) => obj_items i
  | TfValue _ => inl TypeError
  end.

(** [len(t)] *)
Definition py_len (t : tf_value) : M nat :=
  match sequence_items t with
  | inr items => ret (List.length items)
  | inl e => raise e
  end.

(** [t[index]] *)
Definition py_index (t : tf_value) (index : nat) : M value :=
  match sequence_items t with
  | inr items =>
      match nth_error items index with
      | Some v => ret v
      | None => raise IndexError
      end
  | inl e => raise e
  end.

Definition tf_py_str (o : printopts) (t : tf_value) : string :=
  match t with
  | TfValue v => py_str o v
  | TfList items => list_str o items
  end.

Definition tf_str (t : tf_value) : M string :=
  fun w => (Returned (tf_py_str (np_options w) t), w).

(** The loop over the poles and the loop over the zeros of [x[key]]: they
    differ in the entry they read and in the letter they print.
    [[
    for index in range(len(x[key][field])):
        print('\t' + letter + str(index) + ":", str(x[key][field][index]))
    ]] *)
Definition print_numbered (x : tf_results) (key : value)
    (field letter : string) : M unit :=
  xk <- mapping_getitem x key ;;
  entries <- mapping_getitem xk (VStr field) ;;
  n <- py_len entries ;;
  for_each (seq 0 n) (fun index =>
    xk <- mapping_getitem x key ;;
    entries <- mapping_getitem xk (VStr field) ;;
    entry <- py_index entries index ;;
    s <- str entry ;;
    py_print [VStr (tab ++ letter ++ str_int (Z.of_nat index) ++ ":"); VStr s] nl).

(** The body of the loop over the keys. *)
Definition print_transfer_function (x : tf_results) (key : value) : M unit :=
  sk <- str key ;;
  xk <- mapping_getitem x key ;;
  gain <- mapping_getitem xk (VStr "gain") ;;
  sgain <- tf_str gain ;;
  py_print [VStr (sk ++ " = " ++ sgain)] nl ;;
  xk <- mapping_getitem x key ;;
  gain0 <- mapping_getitem xk (VStr "gain0") ;;
  sgain0 <- tf_str gain0 ;;
  py_print [VStr (tab ++ "DC: " ++ sgain0)] nl ;;
  print_numbered x key "poles" "P" ;;
  print_numbered x key "zeros" "Z".

Definition print_symbolic_transfer_functions (x : tf_results) : M value :=
  keys <- sort_by_cmp_of_str (map fst x) ;;
  for_each keys (print_transfer_function x) ;;
  ret VNone.

(** The lines of a list of poles or zeros: a tab, the letter, the index
    counted from 0, a colon, a space and the item. *)
Definition numbered_line (o : printopts) (letter : string)
    (numbered : nat * value) : string :=
  tab ++ letter ++ str_int (Z.of_nat (fst numbered)) ++ ": "
  ++ py_str o (snd numbered) ++ nl.

Definition numbered_lines (o : printopts) (letter : string)
    (items : list value) : string :=
  text_of (map (numbered_line o letter)
               (combine (seq 0 (List.length items)) items)).

(** A transfer function that has its four entries, the poles and the zeros
    being sequences. *)
Definition is_sequence (t : tf_value) : bool :=
  match sequence_items t with
  | inr _ => true
  | inl _ => false
  end.

Definition tf_complete (xk : tf_dict) : bool :=
  match mapping_get xk (VStr "gain"), mapping_get xk (VStr "gain0"),
        mapping_get xk (VStr "poles"), mapping_get xk (VStr "zeros") with
  | Some _, Some _, Some poles, Some zeros =>
      is_sequence poles && is_sequence zeros
  | _, _, _, _ => false
  end.

Definition tf_key_complete (x : tf_results) (key : value) : bool :=
  match mapping_get x key with
  | Some xk => tf_complete xk
  | None => false
  end.

Definition items_or_nil (t : option tf_value) : list value :=
  match t with
  | Some t' => match sequence_items t' with inr items => items | inl _ => [] end
  | None => []
  end.

Definition text_or_empty (o : printopts) (t : option tf_value) : string :=
  match t with
  | Some t' => tf_py_str o t'
  | None => ""
  end.

(** The lines of one transfer function. *)
Definition tf_block (o : printopts) (x : tf_results) (key : value) : string :=
  match mapping_get x key with
  | Some xk =>
      (py_str o key ++ " = "
       ++ text_or_empty o (mapping_get xk (VStr "gain")) ++ nl)
      ++ (tab ++ "DC: " ++ text_or_empty o (mapping_get xk (VStr "gain0")) ++ nl)
      ++ numbered_lines o "P" (items_or_nil (mapping_get xk (VStr "poles")))
      ++ numbered_lines o "Z" (items_or_nil (mapping_get xk (VStr "zeros")))
  | None => ""
  end.

Definition tf_sample : tf_results :=
  [ (VStr "vo/vi",
     [ (VStr "gain", TfValue (VStr "R2/(R1 + R2)"));
       (VStr "gain0", TfValue (VStr "R2/(R1 + R2)"));
       (VStr "poles", TfList [VInt (-1); VInt (-20)]);
       (VStr "zeros", TfList []) ]) ].

Definition sample_list_str (o : printopts) (l : list value) : string := "[...]".
Definition sample_obj_items (i : nat) : exn + list value := inl TypeError.

(** ** What the printers are expected to write *)

(** The entries that the [op] branch of [print_analysis] does not list. *)
Definition op_skipped (x : value) : bool :=
  value_eqb x (VStr "type") || value_eqb x (VStr "outfile")
  || value_eqb x (VStr "verbose").

(** One [ key=value] item of the [.op] line. *)
Definition op_entry (o : printopts) (an : dict) (x : value) : string :=
  " " ++ py_str o x ++ "="
  ++ match dict_get an x with
     | Some v => py_str o v
     | None => ""
     end.

Definition op_line (o : printopts) (an : dict) : string :=
  ".op"
  ++ text_of (map (op_entry o an)
                  (filter (fun x => negb (op_skipped x)) (dict_keys an)))
  ++ nl.

(** A type that [print_analysis] has no branch for: compared with each of
    the four names it gives false, and no comparison raises. *)
Definition is_not (t : value) (name : string) : bool :=
  match py_eq_str t name with
  | inr false => true
  | _ => false
  end.

Definition falls_through (t : value) : bool :=
  is_not t "op" && is_not t "dc" && is_not t "tran" && is_not t "shooting".

(** What the [tran] branch appends for the [method] entry, when it can. *)
Definition tran_method_text (method : value) : option string :=
  match method with
  | VNone => Some ""
  | VStr m => Some (" method=" ++ m)
  | _ => None
  end.

(** The exception that the [tran] branch raises at a [method] it cannot
    add to a string: [TypeError] for a boolean or an integer, what its
    [__radd__] raises for another object. *)
Definition tran_method_error (method : value) : option exn :=
  match method with
  | VBool _ => Some TypeError
  | VInt _ => Some TypeError
  | VObj i =>
      match obj_radd i " method=" with
      | inl e => Some e
      | inr _ => None
      end
  | _ => None
  end.

(** An optional item of the [.shooting] line: left out for [None]. *)
Definition shooting_item (o : printopts) (label : string) (v : value) : string :=
  if is_None v then "" else label ++ py_str o v.

(** The lines of [print_symbolic_equations]. *)
Definition equations_text (o : printopts) (eq_list : list value) : string :=
  ("+--" ++ nl)
  ++ text_of (map (fun eq => "| " ++ py_str o eq ++ nl) eq_list)
  ++ ("+--" ++ nl).

(** The two lines of [print_result_check] for a check that passed. *)
Definition margins_text (o : printopts) : string :=
  ("Difference check is within margins." ++ nl)
  ++ ("(Voltage: er=" ++ py_str o options_ver ++ ", ea=" ++ py_str o options_vea
      ++ ", Current: er=" ++ py_str o options_ier ++ ", ea="
      ++ py_str o options_iea ++ ")" ++ nl).

(** A computation that, whatever it returns or raises, only appends to
    standard output: standard error and numpy's print options are as before
    and what standard output held is still there. *)
Definition prints_only {A : Type} (m : M A) : Prop :=
  forall w, exists text,
    world_after m w
    = {| stdout := stdout w ++ text;
         stderr := stderr w;
         np_options := np_options w |}.

(** Inputs to run the printers on. *)
Definition op_sample : dict :=
  [ (VStr "type", VStr "op");
    (VStr "guess", VBool true);
    (VStr "outfile", VStr "out.op");
    (VStr "verbose", VInt 0);
    (VStr "x0", VNone) ].

Definition dc_sample : dict :=
  [ (VStr "type", VStr "dc");
    (VStr "source", VStr "V1");
    (VStr "start", VInt 0);
    (VStr "stop", VInt 5);
    (VStr "step", VInt 1);
    (VStr "sweep_type", VStr "LINEAR") ].

Definition tran_bad_method : dict :=
  (tran_without_method ++ [ (VStr "method", VInt 2) ])%list.

Definition shooting_sample : dict :=
  [ (VStr "type", VStr "shooting");
    (VStr "period", VInt 1);
    (VStr "method", VStr "shooting");
    (VStr "points", VInt 100);
    (VStr "step", VNone);
    (VStr "autonomous", VBool false) ].

Definition ac_sample : dict :=
  [ (VStr "type", VStr "ac"); (VStr "start", VInt 1) ].

(** A mapping whose [type] is a numpy array of numbers, and a transient
    analysis whose [method] is a numpy array of strings. *)
Definition array_type_sample : dict :=
  [ (VStr "type", VObj 0) ].

Definition tran_array_method : dict :=
  (tran_without_method ++ [ (VStr "method", VObj 1) ])%list.

(** ** Facts about text *)

Lemma append_assoc (a b c : string) : (a ++ b) ++ c = a ++ (b ++ c).
Proof.
  induction a as [|ch a IH]; simpl; [reflexivity|].
  now rewrite IH.
Qed.

Lemma append_empty_r (a : string) : a ++ "" = a.
Proof.
  induction a as [|ch a IH]; simpl; [reflexivity|].
  now rewrite IH.
Qed.

Lemma length_append (a b : string) :
  String.length (a ++ b) = (String.length a + String.length b)%nat.
Proof.
  induction a as [|ch a IH]; simpl; [reflexivity|].
  now rewrite IH.
Qed.

Lemma append_grows (a b : string) : a ++ b = a -> b = "".
Proof.
  intros H.
  assert (L : String.length (a ++ b) = String.length a) by now rewrite H.
  rewrite length_append in L.
  destruct b as [|ch b]; [reflexivity|].
  simpl in L. lia.
Qed.

(** ** The error and warning helpers *)

Lemma print_general_error_run (description : string) (flag : bool) (w : world) :
  print_general_error description flag w =
  (Returned VNone,
   if flag
   then {| stdout := stdout w ++ ("E: " ++ description) ++ nl;
           stderr := stderr w;
           np_options := np_options w |}
   else {| stdout := stdout w;
           stderr := stderr w ++ ("E: " ++ description) ++ nl;
           np_options := np_options w |}).
Proof. destruct flag; reflexivity. Qed.

Lemma print_warning_run (description : string) (flag : bool) (w : world) :
  print_warning description flag w =
  (Returned VNone,
   if flag
   then {| stdout := stdout w ++ ("W: " ++ description) ++ nl;
           stderr := stderr w;
           np_options := np_options w |}
   else {| stdout := stdout w;
           stderr := stderr w ++ ("W: " ++ description) ++ nl;
           np_options := np_options w |}).
Proof. destruct flag; reflexivity. Qed.

Lemma print_parse_error_run (nline : Z) (line : string) (flag : bool) (w : world) :
  print_parse_error nline line flag w =
  (Returned VNone,
   if flag
   then {| stdout := (stdout w
                      ++ ("E: " ++ "Parse error on line " ++ str_int nline ++ ":")
                      ++ nl) ++ line ++ nl;
           stderr := stderr w;
           np_options := np_options w |}
   else {| stdout := stdout w;
           stderr := (stderr w
                      ++ ("E: " ++ "Parse error on line " ++ str_int nline ++ ":")
                      ++ nl) ++ line ++ nl;
           np_options := np_options w |}).
Proof.
  unfold print_parse_error, bind.
  rewrite print_general_error_run.
  destruct flag; reflexivity.
Qed.

(** C3: for every description, the message [print_general_error] emits is
    ["E: "] followed by the description, and the message [print_warning]
    emits is ["W: "] followed by the description, whichever stream
    [print_to_stdout] selects: the selected stream grows by exactly that
    message and the end of line. *)
Theorem error_and_warning_prefix :
  forall (description : string) (print_to_stdout : bool) (w : world),
    selected print_to_stdout
      (world_after (print_general_error description print_to_stdout) w)
    = selected print_to_stdout w ++ ("E: " ++ description) ++ nl
    /\
    selected print_to_stdout
      (world_after (print_warning description print_to_stdout) w)
    = selected print_to_stdout w ++ ("W: " ++ description) ++ nl.
Proof.
  intros description flag w. unfold world_after.
  rewrite print_general_error_run, print_warning_run.
  destruct flag; split; reflexivity.
Qed.

(** C4: [print_general_error], [print_warning] and [print_parse_error]
    write their message to standard error when [print_to_stdout] is false
    and to standard output when it is true: the selected stream grows by
    exactly the message (the prefix, the description and the end of line;
    for a parse error the line that names the line number and then the line
    itself), and the stream that is not selected is left as it was. *)
Theorem messages_routed_to_selected_stream :
  forall (description line : string) (nline : Z) (w : world),
    let error_message := ("E: " ++ description) ++ nl in
    let warning_message := ("W: " ++ description) ++ nl in
    let parse_message :=
      ("E: Parse error on line " ++ str_int nline ++ ":") ++ nl
      ++ line ++ nl in
    let to_stderr (message : string) (w' : world) :=
      stderr w' = stderr w ++ message /\ stdout w' = stdout w in
    let to_stdout (message : string) (w' : world) :=
      stdout w' = stdout w ++ message /\ stderr w' = stderr w in
    to_stderr error_message
              (world_after (print_general_error description false) w)
    /\ to_stdout error_message
                 (world_after (print_general_error description true) w)
    /\ to_stderr warning_message
                 (world_after (print_warning description false) w)
    /\ to_stdout warning_message
                 (world_after (print_warning description true) w)
    /\ to_stderr parse_message
                 (world_after (print_parse_error nline line false) w)
    /\ to_stdout parse_message
                 (world_after (print_parse_error nline line true) w).
Proof.
  intros description line nline w error_message warning_message parse_message
         to_stderr to_stdout.
  unfold to_stderr, to_stdout, error_message, warning_message, parse_message,
    world_after.
  rewrite !print_general_error_run, !print_warning_run, !print_parse_error_run.
  cbn [snd stdout stderr].
  repeat split; rewrite ?append_assoc; reflexivity.
Qed.

(** C6: [print_general_error], [print_warning] and [print_parse_error]
    return [None] on every input. *)
Theorem error_helpers_return_None :
  forall (description line : string) (nline : Z) (print_to_stdout : bool)
         (w : world),
    result_of (print_general_error description print_to_stdout) w
    = Returned VNone
    /\ result_of (print_warning description print_to_stdout) w
       = Returned VNone
    /\ result_of (print_parse_error nline line print_to_stdout) w
       = Returned VNone.
Proof.
  intros. unfold result_of.
  rewrite print_general_error_run, print_warning_run, print_parse_error_run.
  repeat split.
Qed.

(** C9: [print_parse_error] emits two lines on the selected stream, first
    ["E: Parse error on line "], the line number and a colon, then the text
    of the line; both go to standard error, or both to standard output when
    [print_to_stdout] is true, and the other stream is left as it was. *)
Theorem print_parse_error_two_lines :
  forall (nline : Z) (line : string) (print_to_stdout : bool) (w : world),
    let w' := world_after (print_parse_error nline line print_to_stdout) w in
    selected print_to_stdout w'
    = selected print_to_stdout w
      ++ ("E: Parse error on line " ++ str_int nline ++ ":") ++ nl
      ++ line ++ nl
    /\ unselected print_to_stdout w' = unselected print_to_stdout w.
Proof.
  intros nline line flag w. unfold world_after.
  rewrite print_parse_error_run.
  destruct flag; cbn [snd selected unselected stdout stderr];
    (split; [| reflexivity]);
    rewrite !append_assoc; reflexivity.
Qed.

(** ** Loops that print *)

Lemma for_each_print_run (l : list value) (w : world) :
  for_each l (fun v => py_print [v] nl) w =
  (Returned tt,
   {| stdout := stdout w
                ++ text_of (map (fun v => py_str (np_options w) v ++ nl) l);
      stderr := stderr w;
      np_options := np_options w |}).
Proof.
  revert w. induction l as [|v l IH]; intros w.
  - cbn. rewrite append_empty_r. destruct w; reflexivity.
  - cbn [for_each]. unfold bind at 1.
    unfold py_print at 1, stdout_write at 1. rewrite IH.
    cbn. rewrite !append_assoc. reflexivity.
Qed.

(** ** numpy's print options across a [with] block *)

Lemma set_options_as_kwargs (original current : printopts) :
  set_options (as_kwargs original) current = original.
Proof. destruct original; reflexivity. Qed.

Lemma printoptions_run {B : Type} (kw : printopts_kwargs) (body : M B) (w : world) :
  printoptions kw body w =
  match body (with_options (set_options kw (np_options w)) w) with
  | (Returned b, w2) => (Returned b, with_options (np_options w) w2)
  | (Raised e, w2) => (Raised e, w2)
  end.
Proof.
  unfold printoptions, with_generator, printoptions_enter, printoptions_leave,
    bind, np_get_printoptions, np_set_printoptions, ret, with_options.
  cbn.
  destruct (body _) as [[b|e] w2]; [| reflexivity].
  rewrite set_options_as_kwargs. reflexivity.
Qed.

Lemma printoptions_restores_after_return {B : Type}
    (kw : printopts_kwargs) (body : M B) (w : world) :
  returns_normally (printoptions kw body) w = true ->
  np_options (world_after (printoptions kw body) w) = np_options w.
Proof.
  unfold returns_normally, result_of, world_after.
  rewrite printoptions_run.
  destruct (body _) as [[b|e] w2]; cbn; [reflexivity | discriminate].
Qed.

Lemma printoptions_kept_after_exception {B : Type}
    (kw : printopts_kwargs) (e : exn) (w : world) :
  printoptions kw (raise e : M B) w =
  (Raised e, with_options (set_options kw (np_options w)) w).
Proof. rewrite printoptions_run. reflexivity. Qed.

(** ** Informational lines *)

Lemma print_info_line_run
    (msg : value) (relevance verbose : Z) (print_nl : bool) (w : world) :
  print_info_line (msg, relevance) verbose print_nl w
  = (Returned VNone,
     if verbose >=? relevance
     then {| stdout := stdout w
                       ++ py_str (set_options info_line_kwargs (np_options w)) msg
                       ++ (if print_nl then nl else " ");
             stderr := stderr w;
             np_options := np_options w |}
     else w).
Proof.
  unfold print_info_line.
  destruct (verbose >=? relevance); [| reflexivity].
  unfold bind at 1. rewrite printoptions_run.
  destruct print_nl; reflexivity.
Qed.

(** C5: [print_info_line] prints the message exactly when [verbose] is at
    least the relevance of the message: standard output then grows by the
    message, rendered under the print options of [options], and a newline
    (a space without [print_nl]); below the relevance nothing is written
    and the process is left as it was. *)
Theorem print_info_line_verbosity :
  forall (msg : value) (relevance verbose : Z) (print_nl : bool) (w : world),
    let during := set_options info_line_kwargs (np_options w) in
    let text := py_str during msg ++ (if print_nl then nl else " ") in
    print_info_line (msg, relevance) verbose print_nl w
    = (Returned VNone,
       if verbose >=? relevance
       then {| stdout := stdout w ++ text;
               stderr := stderr w;
               np_options := np_options w |}
       else w)
    /\ (stdout (world_after (print_info_line (msg, relevance) verbose print_nl) w)
        <> stdout w <-> verbose >= relevance).
Proof.
  intros msg relevance verbose print_nl w during text.
  split; [apply print_info_line_run |].
  unfold world_after. rewrite print_info_line_run. cbn [snd].
  rewrite Z.geb_leb.
  destruct (Z.leb_spec relevance verbose) as [Hle | Hlt]; cbn [stdout].
  - split; [intros _; lia |].
    intros _ H. apply append_grows in H.
    destruct (py_str _ msg), print_nl; discriminate.
  - split; [intros H; now elim H | lia].
Qed.

(** ** The check of the operating point *)

Lemma print_result_check_cons_run
    (bv : value) (rest : list value) (verbose : value) (w : world) :
  print_result_check (bv :: rest) verbose w
  = (Returned VNone,
     {| stdout := stdout w
                  ++ ("Warning: solution is heavvily dependent on gmin." ++ nl)
                  ++ ("Affected variables:" ++ nl)
                  ++ text_of (map (fun v => py_str (np_options w) v ++ nl)
                                  (bv :: rest));
        stderr := stderr w;
        np_options := np_options w |}).
Proof.
  unfold print_result_check.
  cbn [List.length Nat.eqb negb].
  unfold bind at 1 2 3.
  unfold py_print at 1 2, stdout_write at 1 2.
  cbn [map join stdout stderr np_options py_str].
  rewrite for_each_print_run.
  cbn [stdout stderr np_options ret].
  rewrite !append_assoc. reflexivity.
Qed.

Lemma print_result_check_result
    (badvars : list value) (verbose : value) (w : world) :
  result_of (print_result_check badvars verbose) w = Returned VNone.
Proof.
  unfold result_of. destruct badvars as [|b l].
  - unfold print_result_check. cbn [List.length Nat.eqb negb].
    destruct (truthy verbose); reflexivity.
  - rewrite print_result_check_cons_run. reflexivity.
Qed.

(** C10: [print_result_check] returns [None] for every list and every
    [verbose]; for a list that is not empty it prints the warning about
    gmin, the heading and every entry of the list, whatever [verbose] is;
    for the empty list and [verbose] 0 it prints nothing. *)
Theorem print_result_check_output :
  forall (badvars : list value) (bv : value) (rest : list value)
         (verbose : value) (w : world),
    result_of (print_result_check badvars verbose) w = Returned VNone
    /\ world_after (print_result_check (bv :: rest) verbose) w
       = {| stdout := stdout w
                      ++ ("Warning: solution is heavvily dependent on gmin." ++ nl)
                      ++ ("Affected variables:" ++ nl)
                      ++ text_of (map (fun v => py_str (np_options w) v ++ nl)
                                      (bv :: rest));
            stderr := stderr w;
            np_options := np_options w |}
    /\ world_after (print_result_check [] (VInt 0)) w = w.
Proof.
  intros badvars bv rest verbose w.
  split; [| split].
  - apply print_result_check_result.
  - unfold world_after. rewrite print_result_check_cons_run. reflexivity.
  - reflexivity.
Qed.

(** ** Importing the module *)

(** C8: when the module is imported and [LANG] is not set, the two lines of
    the locale warning are written by [print_warning] to standard error;
    when [LANG] is set to a text that is not empty, nothing is written. *)
Theorem locale_warning_on_import :
  forall (w : world),
    module_import None w
    = (Returned tt,
       {| stdout := stdout w;
          stderr := stderr w ++ ("W: " ++ locale_warning_1) ++ nl
                             ++ ("W: " ++ locale_warning_2) ++ nl;
          np_options := np_options w |})
    /\ (forall lang : string,
           lang <> "" -> module_import (Some lang) w = (Returned tt, w)).
Proof.
  intros w. split.
  - unfold module_import. unfold bind at 1.
    replace ((if PY2 then ret tt else ret tt) w) with (Returned tt, w)
      by (destruct PY2; reflexivity).
    cbv beta iota. unfold bind. rewrite !print_warning_run.
    cbn [stdout stderr np_options ret]. rewrite !append_assoc. reflexivity.
  - intros lang Hlang. unfold module_import. unfold bind at 1.
    replace ((if PY2 then ret tt else ret tt) w) with (Returned tt, w)
      by (destruct PY2; reflexivity).
    cbv beta iota zeta.
    apply String.eqb_neq in Hlang. rewrite Hlang. reflexivity.
Qed.

(** ** Reading an analysis *)

Lemma value_eqb_refl (v : value) : value_eqb v v = true.
Proof.
  destruct v as [| b | n | s | i]; cbn.
  - reflexivity.
  - apply Z.eqb_refl.
  - apply Z.eqb_refl.
  - apply String.eqb_refl.
  - apply Nat.eqb_refl.
Qed.

Lemma dict_get_of_key (d : dict) (k : value) :
  In k (dict_keys d) -> exists v, dict_get d k = Some v.
Proof.
  induction d as [|[k' v'] d IH]; cbn; [intros [] |].
  intros [-> | Hin].
  - rewrite value_eqb_refl. now exists v'.
  - destruct (value_eqb k' k); [now exists v' | now apply IH].
Qed.

Lemma returns_normally_bind {A B : Type} (m : M A) (k : A -> M B) (w : world) :
  returns_normally (bind m k) w =
  match m w with
  | (Returned a, w') => returns_normally (k a) w'
  | (Raised _, _) => false
  end.
Proof.
  unfold returns_normally, result_of, bind.
  destruct (m w) as [[a|e] w']; reflexivity.
Qed.

Lemma getitem_run (d : dict) (k : value) (w : world) :
  getitem d k w =
  match dict_get d k with
  | Some v => (Returned v, w)
  | None => (Raised (KeyError k), w)
  end.
Proof. unfold getitem. destruct (dict_get d k); reflexivity. Qed.

(** The loop of the [op] branch reads only keys of the mapping it runs
    over, so no lookup in it fails. *)
Lemma op_loop_returns (an : dict) (keys : list value) (w : world) :
  (forall x, In x keys -> In x (dict_keys an)) ->
  returns_normally
    (for_each keys (fun x =>
       if value_eqb x (VStr "type") || value_eqb x (VStr "outfile")
          || value_eqb x (VStr "verbose")
       then ret tt
       else
         v <- getitem an x ;;
         sx <- str x ;;
         sv <- str v ;;
         py_print [VStr (" " ++ sx ++ "=" ++ sv)] "")) w = true.
Proof.
  revert w. induction keys as [|x keys IH]; intros w Hin; [reflexivity |].
  cbn [for_each]. rewrite returns_normally_bind.
  destruct (value_eqb x (VStr "type") || value_eqb x (VStr "outfile")
            || value_eqb x (VStr "verbose")).
  - cbn. apply IH. intros y Hy. apply Hin. now right.
  - destruct (dict_get_of_key an x) as [v Hv]; [apply Hin; now left |].
    unfold bind at 1. rewrite getitem_run, Hv.
    cbn. apply IH. intros y Hy. apply Hin. now right.
Qed.

Ltac read_entries an :=
  repeat first
    [ progress cbn [andb negb is_None fst snd]
    | progress cbv beta iota
    | match goal with
      | |- context [match dict_get an ?k with _ => _ end] =>
          destruct (dict_get an k)
      | |- context [match format_g ?v with _ => _ end] =>
          destruct (format_g v)
      | |- context [match obj_radd ?i ?s with _ => _ end] =>
          destruct (obj_radd i s)
      | |- context [is_None ?v] => destruct v
      end ];
  try reflexivity.

Lemma eq_str_run (t : value) (s : string) (w : world) :
  eq_str t s w =
  match py_eq_str t s with
  | inr b => (Returned b, w)
  | inl e => (Raised e, w)
  end.
Proof. unfold eq_str. destruct (py_eq_str t s); reflexivity. Qed.

Lemma print_analysis_returns (an : dict) (w : world) :
  returns_normally (print_analysis an) w = analysis_well_formed an.
Proof.
  unfold print_analysis, analysis_well_formed.
  rewrite returns_normally_bind, getitem_run.
  destruct (dict_get an (VStr "type")) as [t|] eqn:Ht; [| reflexivity].
  rewrite returns_normally_bind, eq_str_run.
  destruct (py_eq_str t "op") as [e|[|]]; [reflexivity | |].
  { rewrite returns_normally_bind. unfold py_print at 1, stdout_write at 1.
    rewrite returns_normally_bind.
    match goal with
    | |- context [for_each ?l ?f ?w0] =>
        pose proof (op_loop_returns an l w0 (fun x H => H)) as Hloop;
        unfold returns_normally, result_of in Hloop;
        destruct (for_each l f w0) as [[u|e] w1]; [| discriminate Hloop]
    end.
    reflexivity. }
  rewrite returns_normally_bind, getitem_run, Ht.
  rewrite returns_normally_bind, eq_str_run.
  destruct (py_eq_str t "dc") as [e|[|]]; [reflexivity | |].
  { clear Ht.
    unfold returns_normally, result_of, has_key, has_number, percent_s,
      percent_g, bind, getitem, str, py_print, stdout_write, ret, raise.
    read_entries an. }
  rewrite returns_normally_bind, getitem_run, Ht.
  rewrite returns_normally_bind, eq_str_run.
  destruct (py_eq_str t "tran") as [e|[|]]; [reflexivity | |].
  { clear Ht.
    unfold returns_normally, result_of, has_key, has_method, str_add,
      bind, getitem, str, py_print, stdout_write, ret, raise.
    read_entries an. }
  rewrite returns_normally_bind, getitem_run, Ht.
  rewrite returns_normally_bind, eq_str_run.
  destruct (py_eq_str t "shooting") as [e|[|]]; [reflexivity | | reflexivity].
  clear Ht.
  unfold returns_normally, result_of, has_key, bind, getitem, str, py_print,
    stdout_write, ret, raise.
  read_entries an.
Qed.

Lemma for_each_returns {A : Type} (l : list A) (body : A -> M unit) :
  (forall x w, returns_normally (body x) w = true) ->
  forall w, returns_normally (for_each l body) w = true.
Proof.
  intros Hbody. induction l as [|x l IH]; intros w; [reflexivity |].
  cbn [for_each]. rewrite returns_normally_bind.
  specialize (Hbody x w). unfold returns_normally, result_of in Hbody.
  destruct (body x w) as [[u|e] w']; [apply IH | discriminate Hbody].
Qed.

Lemma print_symbolic_equations_returns (eq_list : list value) (w : world) :
  returns_normally (print_symbolic_equations eq_list) w = true.
Proof.
  unfold print_symbolic_equations.
  rewrite returns_normally_bind. unfold py_print at 1, stdout_write at 1.
  rewrite returns_normally_bind.
  match goal with
  | |- context [for_each ?l ?f ?w0] =>
      pose proof (for_each_returns l f (fun x w1 => eq_refl) w0) as Hloop;
      unfold returns_normally, result_of in Hloop;
      destruct (for_each l f w0) as [[u|e] w1]; [| discriminate Hloop]
  end.
  reflexivity.
Qed.

(** C1, as the code has it: the module raises no exception of its own, and
    the helpers that read nothing from a mapping return on every input of
    the types their docstrings give.  [print_analysis] indexes the mapping
    it is handed and compares and formats what it finds without checking
    it: it returns exactly on the mappings that carry a [type] entry that
    can be compared with the names of the analyses up to the branch taken,
    and the entries that this branch reads, in a form the branch can format
    ([analysis_well_formed]); it raises on the others. *)
Theorem helpers_return_and_print_analysis_needs_its_entries :
  forall (description line : string) (nline : Z) (print_to_stdout : bool)
         (msg : value) (relevance verbose : Z) (print_nl : bool)
         (eq_list badvars : list value) (check_verbose : value)
         (an : dict) (w : world),
    returns_normally (print_general_error description print_to_stdout) w = true
    /\ returns_normally (print_warning description print_to_stdout) w = true
    /\ returns_normally (print_parse_error nline line print_to_stdout) w = true
    /\ returns_normally (print_info_line (msg, relevance) verbose print_nl) w
       = true
    /\ returns_normally (print_symbolic_equations eq_list) w = true
    /\ returns_normally (print_result_check badvars check_verbose) w = true
    /\ returns_normally (print_analysis an) w = analysis_well_formed an.
Proof.
  intros.
  repeat split.
  - unfold returns_normally, result_of.
    now rewrite print_general_error_run.
  - unfold returns_normally, result_of.
    now rewrite print_warning_run.
  - unfold returns_normally, result_of.
    now rewrite print_parse_error_run.
  - unfold returns_normally, result_of.
    now rewrite print_info_line_run.
  - apply print_symbolic_equations_returns.
  - unfold returns_normally.
    now rewrite print_result_check_result.
  - apply print_analysis_returns.
Qed.

(** ** The line of each analysis *)

Lemma op_entry_run (an : dict) (x v : value) (w : world) :
  dict_get an x = Some v ->
  (v <- getitem an x ;;
   sx <- str x ;;
   sv <- str v ;;
   py_print [VStr (" " ++ sx ++ "=" ++ sv)] "") w
  = (Returned tt,
     {| stdout := stdout w ++ op_entry (np_options w) an x;
        stderr := stderr w;
        np_options := np_options w |}).
Proof.
  intros Hv.
  unfold bind, str, getitem, py_print, stdout_write, op_entry.
  rewrite Hv. cbn [ret map join py_str np_options].
  rewrite append_empty_r. reflexivity.
Qed.

Lemma op_loop_run (an : dict) (keys : list value) (w : world) :
  (forall x, In x keys -> In x (dict_keys an)) ->
  for_each keys (fun x =>
    if value_eqb x (VStr "type") || value_eqb x (VStr "outfile")
       || value_eqb x (VStr "verbose")
    then ret tt
    else
      v <- getitem an x ;;
      sx <- str x ;;
      sv <- str v ;;
      py_print [VStr (" " ++ sx ++ "=" ++ sv)] "") w
  = (Returned tt,
     {| stdout := stdout w
                  ++ text_of (map (op_entry (np_options w) an)
                                  (filter (fun x => negb (op_skipped x)) keys));
        stderr := stderr w;
        np_options := np_options w |}).
Proof.
  revert w. induction keys as [|x keys IH]; intros w Hin.
  - cbn. rewrite append_empty_r. destruct w; reflexivity.
  - assert (Hrest : forall y, In y keys -> In y (dict_keys an))
      by (intros y Hy; apply Hin; now right).
    cbn [for_each filter]. unfold op_skipped at 1.
    destruct (value_eqb x (VStr "type") || value_eqb x (VStr "outfile")
              || value_eqb x (VStr "verbose")).
    + unfold bind at 1. cbn [ret negb]. now rewrite IH.
    + destruct (dict_get_of_key an x) as [v Hv]; [apply Hin; now left |].
      unfold bind at 1. rewrite (op_entry_run an x v w Hv).
      rewrite IH by exact Hrest.
      cbn [negb map text_of fold_right stdout stderr np_options].
      rewrite !append_assoc. reflexivity.
Qed.

(** X1: for a mapping of type [op], [print_analysis] writes one line,
    [.op] followed by a [ key=value] item for every entry of the mapping
    other than [type], [outfile] and [verbose], in the order of the
    mapping, and returns [None]. *)
Theorem print_analysis_op_line :
  forall (an : dict) (w : world),
    dict_get an (VStr "type") = Some (VStr "op") ->
    print_analysis an w
    = (Returned VNone,
       {| stdout := stdout w ++ op_line (np_options w) an;
          stderr := stderr w;
          np_options := np_options w |}).
Proof.
  intros an w Ht. unfold print_analysis.
  unfold bind at 1. rewrite getitem_run, Ht.
  cbv beta iota. unfold bind at 1. rewrite eq_str_run.
  cbn [py_eq_str String.eqb Ascii.eqb Bool.eqb].
  cbv beta iota.
  unfold bind at 1. unfold py_print at 1, stdout_write at 1.
  cbv beta iota. unfold bind at 1.
  rewrite op_loop_run by (intros x H; exact H).
  unfold bind, py_print, stdout_write, ret, op_line.
  cbn [map join py_str stdout stderr np_options].
  rewrite !append_assoc. reflexivity.
Qed.

Ltac norm_text :=
  repeat (progress (rewrite ?append_assoc, ?append_empty_r;
                    cbn [String.append])).

Ltac run_analysis :=
  unfold print_analysis, percent_s, percent_g, bind, getitem, str, str_add,
    eq_str, py_print, stdout_write, ret, raise;
  repeat match goal with
         | H : dict_get _ _ = _ |- _ => rewrite H
         | H : format_g _ = _ |- _ => rewrite H
         end;
  cbn [py_eq_str String.eqb Ascii.eqb Bool.eqb is_None negb
       map join py_str stdout stderr np_options].

(** X2: for a mapping of type [dc] that has the five entries of a sweep,
    with [start], [stop] and [step] numbers, [print_analysis] writes the
    [.dc] line with the source, the three numbers in ['%g'] form and the
    type of sweep, and returns [None]. *)
Theorem print_analysis_dc_line :
  forall (an : dict) (source start stop step sweep_type : value)
         (g_start g_stop g_step : string) (w : world),
    dict_get an (VStr "type") = Some (VStr "dc") ->
    dict_get an (VStr "source") = Some source ->
    dict_get an (VStr "start") = Some start ->
    dict_get an (VStr "stop") = Some stop ->
    dict_get an (VStr "step") = Some step ->
    dict_get an (VStr "sweep_type") = Some sweep_type ->
    format_g start = inr g_start ->
    format_g stop = inr g_stop ->
    format_g step = inr g_step ->
    print_analysis an w
    = (Returned VNone,
       {| stdout := stdout w
                    ++ ".dc " ++ py_str (np_options w) source
                    ++ " start=" ++ g_start ++ " stop=" ++ g_stop
                    ++ " step=" ++ g_step
                    ++ " type=" ++ py_str (np_options w) sweep_type ++ nl;
          stderr := stderr w;
          np_options := np_options w |}).
Proof.
  intros an source start stop step sweep_type g_start g_stop g_step w
         Ht Hsource Hstart Hstop Hstep Hsweep Gstart Gstop Gstep.
  run_analysis. norm_text. reflexivity.
Qed.

(** X3: for a mapping of type [tran] with [tstep], [tstop], [tstart] and a
    [method] that is [None] or a string, [print_analysis] writes the [.tran]
    line; the [method=] item is there for a string and left out for
    [None]. *)
Theorem print_analysis_tran_line :
  forall (an : dict) (tstep tstop tstart method : value) (suffix : string)
         (w : world),
    dict_get an (VStr "type") = Some (VStr "tran") ->
    dict_get an (VStr "tstep") = Some tstep ->
    dict_get an (VStr "tstop") = Some tstop ->
    dict_get an (VStr "tstart") = Some tstart ->
    dict_get an (VStr "method") = Some method ->
    tran_method_text method = Some suffix ->
    print_analysis an w
    = (Returned VNone,
       {| stdout := stdout w
                    ++ ".tran tstep=" ++ py_str (np_options w) tstep
                    ++ " tstop=" ++ py_str (np_options w) tstop
                    ++ " tstart=" ++ py_str (np_options w) tstart
                    ++ suffix ++ nl;
          stderr := stderr w;
          np_options := np_options w |}).
Proof.
  intros an tstep tstop tstart method suffix w Ht H1 H2 H3 Hm Hs.
  run_analysis.
  destruct method; cbn in Hs; inversion Hs; subst;
    cbn [is_None negb map join py_str stdout stderr np_options];
    norm_text; reflexivity.
Qed.

(** X4: for a mapping of type [tran] with [tstep], [tstop] and [tstart],
    [print_analysis] has already written the line up to [tstart] when the
    [method] entry makes it raise: [KeyError] for a missing entry,
    [TypeError] for a boolean or an integer, and for another object the
    exception that adding it to a string raises; the line is left without
    its end. *)
Theorem print_analysis_tran_partial_line :
  forall (an : dict) (tstep tstop tstart : value) (w : world),
    dict_get an (VStr "type") = Some (VStr "tran") ->
    dict_get an (VStr "tstep") = Some tstep ->
    dict_get an (VStr "tstop") = Some tstop ->
    dict_get an (VStr "tstart") = Some tstart ->
    let partial :=
      {| stdout := stdout w
                   ++ ".tran tstep=" ++ py_str (np_options w) tstep
                   ++ " tstop=" ++ py_str (np_options w) tstop
                   ++ " tstart=" ++ py_str (np_options w) tstart;
         stderr := stderr w;
         np_options := np_options w |} in
    (dict_get an (VStr "method") = None ->
     print_analysis an w = (Raised (KeyError (VStr "method")), partial))
    /\ (forall method e,
           dict_get an (VStr "method") = Some method ->
           tran_method_error method = Some e ->
           print_analysis an w = (Raised e, partial)).
Proof.
  intros an tstep tstop tstart w Ht H1 H2 H3 partial. subst partial. split.
  - intros Hm. run_analysis. norm_text. reflexivity.
  - intros method e Hm Hs. run_analysis.
    destruct method as [| b | n | s | i]; cbn in Hs; try discriminate Hs;
      cbn [is_None negb map join py_str stdout stderr np_options].
    + injection Hs as <-. norm_text. reflexivity.
    + injection Hs as <-. norm_text. reflexivity.
    + destruct (obj_radd i " method=") as [e'|v]; [| discriminate Hs].
      injection Hs as <-. norm_text. reflexivity.
Qed.

(** X5: for a mapping of type [shooting] with its five entries,
    [print_analysis] writes the [.shooting] line; the [points=] and [step=]
    items are left out when the entry is [None], and the value of
    [autonomous] follows the equals sign after a space. *)
Theorem print_analysis_shooting_line :
  forall (an : dict) (period method points step autonomous : value) (w : world),
    dict_get an (VStr "type") = Some (VStr "shooting") ->
    dict_get an (VStr "period") = Some period ->
    dict_get an (VStr "method") = Some method ->
    dict_get an (VStr "points") = Some points ->
    dict_get an (VStr "step") = Some step ->
    dict_get an (VStr "autonomous") = Some autonomous ->
    print_analysis an w
    = (Returned VNone,
       {| stdout := stdout w
                    ++ ".shooting period=" ++ py_str (np_options w) period
                    ++ " method=" ++ py_str (np_options w) method
                    ++ shooting_item (np_options w) " points=" points
                    ++ shooting_item (np_options w) " step=" step
                    ++ " autonomous= " ++ py_str (np_options w) autonomous ++ nl;
          stderr := stderr w;
          np_options := np_options w |}).
Proof.
  intros an period method points step autonomous w Ht H1 H2 H3 H4 H5.
  run_analysis. unfold shooting_item.
  destruct (is_None points), (is_None step);
    cbn [negb map join py_str stdout stderr np_options];
    norm_text; reflexivity.
Qed.

(** X6: for a mapping whose [type] compares unequal to each of [op],
    [dc], [tran] and [shooting], no comparison raising, [print_analysis]
    writes nothing and returns [None], whatever else the mapping holds. *)
Theorem print_analysis_other_type_is_silent :
  forall (an : dict) (t : value) (w : world),
    dict_get an (VStr "type") = Some t ->
    falls_through t = true ->
    print_analysis an w = (Returned VNone, w).
Proof.
  intros an t w Ht Hk. unfold falls_through, is_not in Hk.
  apply andb_prop in Hk. destruct Hk as [Hk Hshooting].
  apply andb_prop in Hk. destruct Hk as [Hk Htran].
  apply andb_prop in Hk. destruct Hk as [Hop Hdc].
  destruct (py_eq_str t "op") as [?|[|]] eqn:Eop; try discriminate Hop.
  destruct (py_eq_str t "dc") as [?|[|]] eqn:Edc; try discriminate Hdc.
  destruct (py_eq_str t "tran") as [?|[|]] eqn:Etran; try discriminate Htran.
  destruct (py_eq_str t "shooting") as [?|[|]] eqn:Eshooting;
    try discriminate Hshooting.
  unfold print_analysis, bind, getitem, eq_str, ret.
  rewrite Ht. cbv beta iota.
  rewrite Eop. cbv beta iota. rewrite Edc. cbv beta iota.
  rewrite Etran. cbv beta iota. rewrite Eshooting. reflexivity.
Qed.

(** X7: handed a mapping without a [type] entry, [print_analysis] raises
    [KeyError] for [type] before it has written anything. *)
Theorem print_analysis_without_type :
  forall (an : dict) (w : world),
    dict_get an (VStr "type") = None ->
    print_analysis an w = (Raised (KeyError (VStr "type")), w).
Proof.
  intros an w Ht. unfold print_analysis, bind. rewrite getitem_run, Ht.
  reflexivity.
Qed.



(** ** What the printers leave alone *)

Lemma prints_only_ret {A : Type} (a : A) : prints_only (ret a).
Proof.
  intros w. exists "". cbn. rewrite append_empty_r. destruct w; reflexivity.
Qed.

Lemma prints_only_raise {A : Type} (e : exn) : prints_only (raise e : M A).
Proof.
  intros w. exists "". cbn. rewrite append_empty_r. destruct w; reflexivity.
Qed.

Lemma prints_only_bind {A B : Type} (m : M A) (k : A -> M B) :
  prints_only m -> (forall a, prints_only (k a)) -> prints_only (bind m k).
Proof.
  intros Hm Hk w. destruct (Hm w) as [t1 H1].
  unfold world_after, bind in *. destruct (m w) as [[a|e] w1]; cbn [snd] in *.
  - destruct (Hk a w1) as [t2 H2]. unfold world_after in H2.
    exists (t1 ++ t2). rewrite H2, H1. cbn. now rewrite append_assoc.
  - exists t1. exact H1.
Qed.

Lemma prints_only_for_each {A : Type} (l : list A) (body : A -> M unit) :
  (forall x, prints_only (body x)) -> prints_only (for_each l body).
Proof.
  intros Hbody. induction l as [|x l IH]; cbn [for_each].
  - apply prints_only_ret.
  - apply prints_only_bind; [apply Hbody | intros _; exact IH].
Qed.

Lemma prints_only_stdout_write (s : string) : prints_only (stdout_write s).
Proof. intros w. now exists s. Qed.

Lemma prints_only_py_print (args : list value) (end_ : string) :
  prints_only (py_print args end_).
Proof. intros w. eexists. reflexivity. Qed.

Lemma prints_only_str (v : value) : prints_only (str v).
Proof.
  intros w. exists "". cbn. rewrite append_empty_r. destruct w; reflexivity.
Qed.

Lemma prints_only_getitem (d : dict) (k : value) : prints_only (getitem d k).
Proof.
  unfold getitem. destruct (dict_get d k);
    [apply prints_only_ret | apply prints_only_raise].
Qed.

Lemma prints_only_str_add (a : string) (b : value) : prints_only (str_add a b).
Proof.
  destruct b as [| | | | i]; cbn [str_add];
    try destruct (obj_radd i a);
    first [apply prints_only_ret | apply prints_only_raise].
Qed.

Lemma prints_only_eq_str (v : value) (s : string) : prints_only (eq_str v s).
Proof.
  unfold eq_str. destruct (py_eq_str v s);
    [apply prints_only_raise | apply prints_only_ret].
Qed.

Lemma prints_only_sort (keys : list value) :
  prints_only (sort_by_cmp_of_str keys).
Proof.
  intros w. exists "". unfold world_after, sort_by_cmp_of_str.
  destruct PY2; cbn; rewrite append_empty_r; destruct w; reflexivity.
Qed.

Lemma prints_only_mapping_getitem {V : Type} (d : list (value * V)) (k : value) :
  prints_only (mapping_getitem d k).
Proof.
  unfold mapping_getitem. destruct (mapping_get d k);
    [apply prints_only_ret | apply prints_only_raise].
Qed.

Lemma prints_only_py_len (t : tf_value) : prints_only (py_len t).
Proof.
  unfold py_len. destruct (sequence_items t);
    [apply prints_only_raise | apply prints_only_ret].
Qed.

Lemma prints_only_py_index (t : tf_value) (index : nat) :
  prints_only (py_index t index).
Proof.
  unfold py_index. destruct (sequence_items t) as [e|items];
    [apply prints_only_raise |].
  destruct (nth_error items index);
    [apply prints_only_ret | apply prints_only_raise].
Qed.

Lemma prints_only_tf_str (t : tf_value) : prints_only (tf_str t).
Proof.
  intros w. exists "". cbn. rewrite append_empty_r. destruct w; reflexivity.
Qed.

Ltac prints_only_steps :=
  repeat first
    [ apply prints_only_ret
    | apply prints_only_raise
    | apply prints_only_stdout_write
    | apply prints_only_py_print
    | apply prints_only_str
    | apply prints_only_getitem
    | apply prints_only_str_add
    | apply prints_only_eq_str
    | apply prints_only_sort
    | apply prints_only_mapping_getitem
    | apply prints_only_py_len
    | apply prints_only_py_index
    | apply prints_only_tf_str
    | apply prints_only_for_each; intros
    | apply prints_only_bind; [| intros]
    | match goal with
      | |- prints_only (if ?b then _ else _) => destruct b
      | |- prints_only (match ?x with inl _ => _ | inr _ => _ end) => destruct x
      end ].

(** X9: [print_analysis] only appends to standard output.  For every
    mapping, also one it raises on, standard error and numpy's print options
    are left as they were and what standard output held is kept. *)
Theorem print_analysis_prints_only :
  forall (an : dict), prints_only (print_analysis an).
Proof.
  intros an. unfold print_analysis, percent_s, percent_g.
  prints_only_steps.
Qed.

(** X10: the printers of results only append to standard output:
    [print_symbolic_results] and [print_symbolic_transfer_functions] (under
    either Python), [print_symbolic_equations] and [print_result_check]
    leave standard error and numpy's print options as they were, on every
    input, also one they raise on. *)
Theorem result_printers_print_only :
  forall (x : dict) (tfs : tf_results) (eq_list badvars : list value)
         (verbose : value),
    prints_only (print_symbolic_results x)
    /\ prints_only (print_symbolic_transfer_functions tfs)
    /\ prints_only (print_symbolic_equations eq_list)
    /\ prints_only (print_result_check badvars verbose).
Proof.
  intros x tfs eq_list badvars verbose.
  unfold print_symbolic_results, print_symbolic_transfer_functions,
    print_transfer_function, print_numbered, print_symbolic_equations,
    print_result_check.
  repeat split; prints_only_steps.
Qed.

(** ** The other printers *)

Lemma for_each_lines_run {A : Type} (line : printopts -> A -> string)
    (body : A -> M unit) (l : list A) (w : world) :
  (forall x w0,
      body x w0
      = (Returned tt,
         {| stdout := stdout w0 ++ line (np_options w0) x;
            stderr := stderr w0;
            np_options := np_options w0 |})) ->
  for_each l body w
  = (Returned tt,
     {| stdout := stdout w ++ text_of (map (line (np_options w)) l);
        stderr := stderr w;
        np_options := np_options w |}).
Proof.
  intros Hbody. revert w. induction l as [|x l IH]; intros w.
  - cbn. rewrite append_empty_r. destruct w; reflexivity.
  - cbn [for_each]. unfold bind at 1. rewrite Hbody, IH.
    cbn. rewrite !append_assoc. reflexivity.
Qed.

(** X11: [print_symbolic_equations] writes a [+--] line, one line for every
    equation of the list, in order and each after a bar, and a closing [+--]
    line; for the empty list the two [+--] lines are all it writes.  It
    returns [None]. *)
Theorem print_symbolic_equations_output :
  forall (eq_list : list value) (w : world),
    print_symbolic_equations eq_list w
    = (Returned VNone,
       {| stdout := stdout w ++ equations_text (np_options w) eq_list;
          stderr := stderr w;
          np_options := np_options w |})
    /\ equations_text (np_options w) [] = ("+--" ++ nl) ++ ("+--" ++ nl).
Proof.
  intros eq_list w. split; [| reflexivity].
  unfold print_symbolic_equations.
  unfold bind at 1. unfold py_print at 1, stdout_write at 1.
  cbv beta iota. unfold bind at 1.
  rewrite (for_each_lines_run (fun o eq => "| " ++ py_str o eq ++ nl))
    by (intros eq w0; unfold bind, str, py_print, stdout_write;
        cbn [map join py_str]; rewrite !append_assoc; reflexivity).
  unfold bind, py_print, stdout_write, ret, equations_text.
  cbn [map join py_str stdout stderr np_options].
  rewrite !append_assoc. reflexivity.
Qed.

(** X12: handed an empty list, [print_result_check] tests [verbose] for
    truth: for a true [verbose] it writes that the check is within margins
    and the line of the four tolerances of [options]; for a false one ([0],
    [None], [False], the empty string) it writes nothing. *)
Theorem print_result_check_within_margins :
  forall (verbose : value) (w : world),
    print_result_check [] verbose w
    = (Returned VNone,
       if truthy verbose
       then {| stdout := stdout w ++ margins_text (np_options w);
               stderr := stderr w;
               np_options := np_options w |}
       else w)
    /\ truthy (VInt 0) = false /\ truthy VNone = false
    /\ truthy (VBool false) = false /\ truthy (VStr "") = false.
Proof.
  intros verbose w. split; [| repeat split].
  unfold print_result_check. cbn [List.length Nat.eqb negb].
  destruct (truthy verbose); [| reflexivity].
  unfold bind, str, py_print, stdout_write, ret, margins_text.
  cbn [map join py_str stdout stderr np_options].
  rewrite !append_assoc. reflexivity.
Qed.

(** ** Leaving a [with printoptions] block *)

(** X13: when the body of a [with printoptions] block returns, the block
    returns what the body returned, the body has run under the options that
    were passed, laid over the ones in force, and after the block the
    options are the ones from before it, also when the body has changed
    them; the streams are as the body left them. *)
Theorem printoptions_normal_exit :
  forall (B : Type) (kw : printopts_kwargs) (body : M B) (w w2 : world) (b : B),
    body (with_options (set_options kw (np_options w)) w) = (Returned b, w2) ->
    printoptions kw body w = (Returned b, with_options (np_options w) w2).
Proof.
  intros B kw body w w2 b Hbody.
  unfold printoptions, with_generator, printoptions_enter, printoptions_leave,
    bind, np_get_printoptions, np_set_printoptions, ret.
  cbn [stdout stderr np_options].
  fold (with_options (set_options kw (np_options w)) w).
  rewrite Hbody. cbn [stdout stderr np_options].
  rewrite set_options_as_kwargs. reflexivity.
Qed.

(** ** An empty [LANG] *)

(** X14: a [LANG] that is set to the empty string counts as not set: the
    import writes the same two lines of warning.  And whatever [LANG] is,
    the import leaves standard output and numpy's print options as they
    were. *)
Theorem import_with_empty_LANG :
  forall (LANG : option string) (w : world),
    module_import (Some "") w = module_import None w
    /\ stdout (world_after (module_import LANG) w) = stdout w
    /\ np_options (world_after (module_import LANG) w) = np_options w.
Proof.
  intros LANG w. split; [reflexivity |].
  assert (R : (if PY2 then ret tt else ret tt) w = (Returned tt, w))
    by (destruct PY2; reflexivity).
  unfold world_after, module_import, bind. rewrite R.
  cbv beta iota zeta.
  destruct LANG as [lang|]; [destruct (String.eqb lang "") |];
    rewrite ?print_warning_run; split; reflexivity.
Qed.

(** ** Transfer functions *)

Lemma mapping_get_of_key {V : Type} (d : list (value * V)) (k : value) :
  In k (map fst d) -> exists v, mapping_get d k = Some v.
Proof.
  induction d as [|[k' v'] d IH]; cbn; [intros [] |].
  intros [-> | Hin].
  - rewrite value_eqb_refl. now exists v'.
  - destruct (value_eqb k' k); [now exists v' | now apply IH].
Qed.

Lemma numbered_line_run (x : tf_results) (key : value) (xk : tf_dict)
    (entries : tf_value) (items : list value) (field letter : string)
    (index : nat) (entry : value) (w : world) :
  mapping_get x key = Some xk ->
  mapping_get xk (VStr field) = Some entries ->
  sequence_items entries = inr items ->
  nth_error items index = Some entry ->
  (xk <- mapping_getitem x key ;;
   entries <- mapping_getitem xk (VStr field) ;;
   entry <- py_index entries index ;;
   s <- str entry ;;
   py_print [VStr (tab ++ letter ++ str_int (Z.of_nat index) ++ ":"); VStr s] nl) w
  = (Returned tt,
     {| stdout := stdout w ++ numbered_line (np_options w) letter (index, entry);
        stderr := stderr w;
        np_options := np_options w |}).
Proof.
  intros Hx Hf Hs Hn.
  unfold bind, mapping_getitem, py_index, str, py_print, stdout_write,
    numbered_line.
  rewrite Hx. cbn [ret]. rewrite Hf. cbn [ret]. rewrite Hs, Hn.
  cbn [ret map join py_str fst snd np_options].
  norm_text. reflexivity.
Qed.

Lemma numbered_loop_run (x : tf_results) (key : value) (xk : tf_dict)
    (entries : tf_value) (field letter : string)
    (rest done : list value) (w : world) :
  mapping_get x key = Some xk ->
  mapping_get xk (VStr field) = Some entries ->
  sequence_items entries = inr (done ++ rest)%list ->
  for_each (seq (List.length done) (List.length rest)) (fun index =>
    xk <- mapping_getitem x key ;;
    entries <- mapping_getitem xk (VStr field) ;;
    entry <- py_index entries index ;;
    s <- str entry ;;
    py_print [VStr (tab ++ letter ++ str_int (Z.of_nat index) ++ ":"); VStr s] nl) w
  = (Returned tt,
     {| stdout := stdout w
                  ++ text_of (map (numbered_line (np_options w) letter)
                                  (combine (seq (List.length done)
                                                (List.length rest)) rest));
        stderr := stderr w;
        np_options := np_options w |}).
Proof.
  intros Hx Hf. revert done w.
  induction rest as [|entry rest IH]; intros done w Hs.
  - cbn. rewrite append_empty_r. destruct w; reflexivity.
  - cbn [List.length seq for_each combine map text_of fold_right].
    unfold bind at 1.
    rewrite (numbered_line_run x key xk entries (done ++ entry :: rest)%list
               field letter (List.length done) entry w Hx Hf Hs)
      by (rewrite nth_error_app2, Nat.sub_diag by apply Nat.le_refl;
          reflexivity).
    replace (S (List.length done)) with (List.length (done ++ [entry])%list)
      by (rewrite length_app; cbn; apply Nat.add_1_r).
    rewrite IH by (rewrite <- app_assoc; exact Hs).
    cbn [stdout stderr np_options]. rewrite !append_assoc. reflexivity.
Qed.

Lemma print_numbered_run (x : tf_results) (key : value) (xk : tf_dict)
    (entries : tf_value) (items : list value) (field letter : string)
    (w : world) :
  mapping_get x key = Some xk ->
  mapping_get xk (VStr field) = Some entries ->
  sequence_items entries = inr items ->
  print_numbered x key field letter w
  = (Returned tt,
     {| stdout := stdout w ++ numbered_lines (np_options w) letter items;
        stderr := stderr w;
        np_options := np_options w |}).
Proof.
  intros Hx Hf Hs. unfold print_numbered.
  unfold bind at 1. unfold mapping_getitem at 1. rewrite Hx. cbn [ret].
  unfold bind at 1. unfold mapping_getitem at 1. rewrite Hf. cbn [ret].
  unfold bind at 1. unfold py_len. rewrite Hs. cbn [ret].
  apply (numbered_loop_run x key xk entries field letter items [] w Hx Hf Hs).
Qed.

Lemma print_numbered_returns (x : tf_results) (key : value) (xk : tf_dict)
    (field letter : string) (w : world) :
  mapping_get x key = Some xk ->
  returns_normally (print_numbered x key field letter) w
  = match mapping_get xk (VStr field) with
    | Some entries => is_sequence entries
    | None => false
    end.
Proof.
  intros Hx.
  destruct (mapping_get xk (VStr field)) as [entries|] eqn:Hf.
  - unfold is_sequence.
    destruct (sequence_items entries) as [e|items] eqn:Hs.
    + unfold returns_normally, result_of, print_numbered, bind,
        mapping_getitem, py_len.
      rewrite Hx. cbn [ret]. rewrite Hf. cbn [ret]. rewrite Hs. reflexivity.
    + unfold returns_normally, result_of.
      now rewrite (print_numbered_run x key xk entries items field letter w).
  - unfold returns_normally, result_of, print_numbered, bind, mapping_getitem.
    rewrite Hx. cbn [ret]. rewrite Hf. reflexivity.
Qed.

Lemma print_transfer_function_returns (x : tf_results) (key : value) (w : world) :
  returns_normally (print_transfer_function x key) w = tf_key_complete x key.
Proof.
  unfold tf_key_complete, tf_complete, print_transfer_function.
  rewrite returns_normally_bind. unfold str at 1. cbv beta iota.
  rewrite returns_normally_bind. unfold mapping_getitem at 1.
  destruct (mapping_get x key) as [xk|] eqn:Hx; [| reflexivity].
  cbn [ret]. cbv beta iota.
  rewrite returns_normally_bind. unfold mapping_getitem at 1.
  destruct (mapping_get xk (VStr "gain")) as [gain|] eqn:Hgain; [| reflexivity].
  cbn [ret]. cbv beta iota.
  rewrite returns_normally_bind. unfold tf_str at 1. cbv beta iota.
  rewrite returns_normally_bind. unfold py_print at 1, stdout_write at 1.
  cbv beta iota.
  rewrite returns_normally_bind. unfold mapping_getitem at 1.
  cbn [stdout stderr np_options]. rewrite Hx. cbn [ret]. cbv beta iota.
  rewrite returns_normally_bind. unfold mapping_getitem at 1.
  destruct (mapping_get xk (VStr "gain0")) as [gain0|] eqn:Hgain0;
    [| reflexivity].
  cbn [ret]. cbv beta iota.
  rewrite returns_normally_bind. unfold tf_str at 1. cbv beta iota.
  rewrite returns_normally_bind. unfold py_print at 1, stdout_write at 1.
  cbv beta iota.
  rewrite returns_normally_bind.
  destruct (mapping_get xk (VStr "poles")) as [poles|] eqn:Hpoles.
  - destruct (sequence_items poles) as [e|ps] eqn:Hps.
    + unfold print_numbered at 1, bind at 1, mapping_getitem at 1.
      rewrite Hx. cbn [ret]. unfold bind at 1, mapping_getitem at 1.
      rewrite Hpoles. cbn [ret]. unfold bind at 1, py_len. rewrite Hps.
      cbn [raise]. unfold is_sequence at 1. rewrite Hps.
      destruct (mapping_get xk (VStr "zeros")); reflexivity.
    + rewrite (print_numbered_run x key xk poles ps "poles" "P" _ Hx Hpoles Hps).
      rewrite (print_numbered_returns x key xk "zeros" "Z" _ Hx).
      unfold is_sequence. rewrite Hps.
      destruct (mapping_get xk (VStr "zeros")); reflexivity.
  - unfold print_numbered at 1, bind at 1, mapping_getitem at 1.
    rewrite Hx. cbn [ret]. unfold bind at 1, mapping_getitem at 1.
    rewrite Hpoles. reflexivity.
Qed.

Lemma print_transfer_function_run (x : tf_results) (key : value) (w : world) :
  tf_key_complete x key = true ->
  print_transfer_function x key w
  = (Returned tt,
     {| stdout := stdout w ++ tf_block (np_options w) x key;
        stderr := stderr w;
        np_options := np_options w |}).
Proof.
  unfold tf_key_complete, tf_complete, tf_block, is_sequence.
  destruct (mapping_get x key) as [xk|] eqn:Hx; [| discriminate].
  destruct (mapping_get xk (VStr "gain")) as [gain|] eqn:Hgain;
    [| discriminate].
  destruct (mapping_get xk (VStr "gain0")) as [gain0|] eqn:Hgain0;
    [| discriminate].
  destruct (mapping_get xk (VStr "poles")) as [poles|] eqn:Hpoles;
    [| discriminate].
  destruct (mapping_get xk (VStr "zeros")) as [zeros|] eqn:Hzeros;
    [| discriminate].
  destruct (sequence_items poles) as [e|ps] eqn:Hps; [discriminate |].
  destruct (sequence_items zeros) as [e|zs] eqn:Hzs; [discriminate |].
  intros _. unfold print_transfer_function.
  unfold bind at 1, str at 1. cbv beta iota.
  unfold bind at 1, mapping_getitem at 1. rewrite Hx. cbn [ret].
  unfold bind at 1, mapping_getitem at 1. rewrite Hgain. cbn [ret].
  unfold bind at 1, tf_str at 1. cbv beta iota.
  unfold bind at 1, py_print at 1, stdout_write at 1. cbv beta iota.
  unfold bind at 1, mapping_getitem at 1. rewrite Hx. cbn [ret].
  unfold bind at 1, mapping_getitem at 1. rewrite Hgain0. cbn [ret].
  unfold bind at 1, tf_str at 1. cbv beta iota.
  unfold bind at 1, py_print at 1, stdout_write at 1. cbv beta iota.
  unfold bind at 1.
  rewrite (print_numbered_run x key xk poles ps "poles" "P" _ Hx Hpoles Hps).
  rewrite (print_numbered_run x key xk zeros zs "zeros" "Z" _ Hx Hzeros Hzs).
  cbn [map join py_str stdout stderr np_options text_or_empty items_or_nil].
  rewrite Hps, Hzs. norm_text. reflexivity.
Qed.

End Printing.

(** ** Sorting by a comparison *)

Section SortingFacts.
Context {A : Type}.
Variable cmp : A -> A -> comparison.

Hypothesis cmp_total : forall a b, cmp a b = Gt -> cmp b a <> Gt.

Lemma insert_cmp_permutation (a : A) (l : list A) :
  Permutation (insert_cmp cmp a l) (a :: l).
Proof.
  induction l as [|y l IH]; cbn; [reflexivity |].
  destruct (cmp a y); try reflexivity.
  rewrite IH. apply perm_swap.
Qed.

Lemma sort_cmp_permutation (l : list A) : Permutation (sort_cmp cmp l) l.
Proof.
  induction l as [|a l IH]; cbn; [reflexivity |].
  rewrite insert_cmp_permutation. now constructor.
Qed.

Lemma insert_cmp_head (a y : A) (l : list A) :
  not_after cmp y a -> HdRel (not_after cmp) y l -> HdRel (not_after cmp) y (insert_cmp cmp a l).
Proof.
  intros Hya Hl. destruct l as [|z l]; cbn; [now constructor |].
  destruct (cmp a z); constructor; try assumption; now inversion Hl.
Qed.

Lemma insert_cmp_sorted (a : A) (l : list A) :
  Sorted (not_after cmp) l -> Sorted (not_after cmp) (insert_cmp cmp a l).
Proof.
  induction 1 as [|y l Hl IH Hhd]; cbn; [repeat constructor |].
  destruct (cmp a y) eqn:E.
  - repeat constructor; try assumption. unfold not_after. now rewrite E.
  - repeat constructor; try assumption. unfold not_after. now rewrite E.
  - constructor; [exact IH |].
    apply insert_cmp_head; [| exact Hhd].
    now apply cmp_total.
Qed.

Lemma sort_cmp_sorted (l : list A) : Sorted (not_after cmp) (sort_cmp cmp l).
Proof.
  induction l as [|a l IH]; cbn; [constructor |].
  now apply insert_cmp_sorted.
Qed.
End SortingFacts.

(** ** Symbolic results *)

Section SymbolicResults.
Variable obj_str : printopts -> nat -> string.

Lemma str_compare_total (o : printopts) (a b : value) :
  String.compare (py_str obj_str o a) (py_str obj_str o b) = Gt ->
  String.compare (py_str obj_str o b) (py_str obj_str o a) <> Gt.
Proof.
  intros H. rewrite String.compare_antisym, H. discriminate.
Qed.

Lemma symbolic_line_run (x : dict) (k v : value) (w : world) :
  dict_get x k = Some v ->
  (sk <- str obj_str k ;;
   v <- getitem x k ;;
   sv <- str obj_str v ;;
   py_print obj_str [VStr (sk ++ tab ++ " = " ++ sv)] nl) w
  = (Returned tt,
     {| stdout := stdout w ++ symbolic_line obj_str (np_options w) x k;
        stderr := stderr w;
        np_options := np_options w |}).
Proof.
  intros Hv.
  unfold bind, str, getitem, py_print, stdout_write, symbolic_line.
  rewrite Hv. cbn [ret map join py_str np_options].
  rewrite !append_assoc. reflexivity.
Qed.

Lemma symbolic_lines_run (x : dict) (keys : list value) (w : world) :
  (forall k, In k keys -> In k (dict_keys x)) ->
  for_each keys (fun key =>
    sk <- str obj_str key ;;
    v <- getitem x key ;;
    sv <- str obj_str v ;;
    py_print obj_str [VStr (sk ++ tab ++ " = " ++ sv)] nl) w
  = (Returned tt,
     {| stdout := stdout w
                  ++ text_of (map (symbolic_line obj_str (np_options w) x) keys);
        stderr := stderr w;
        np_options := np_options w |}).
Proof.
  revert w. induction keys as [|k keys IH]; intros w Hin.
  - cbn. rewrite append_empty_r. destruct w; reflexivity.
  - destruct (dict_get_of_key x k) as [v Hv]; [apply Hin; now left |].
    cbn [for_each]. unfold bind at 1.
    rewrite (symbolic_line_run x k v w Hv).
    rewrite IH by (intros y Hy; apply Hin; now right).
    cbn [map text_of fold_right np_options stdout stderr].
    rewrite !append_assoc. reflexivity.
Qed.

(** X17: under Python 2 [print_symbolic_results] does what its loop says: it
    returns [None] and writes one line for every key of the mapping, [str()]
    of the key, a tab, [ = ] and [str()] of the value, the keys taken in
    ascending order of their [str()]. *)
Lemma print_symbolic_results_python2 (x : dict) (w : world) :
  let o := np_options w in
  let keys :=
    sort_cmp (fun a b => String.compare (py_str obj_str o a) (py_str obj_str o b))
             (dict_keys x) in
  print_symbolic_results true obj_str x w
  = (Returned VNone,
     {| stdout := stdout w ++ text_of (map (symbolic_line obj_str o x) keys);
        stderr := stderr w;
        np_options := o |})
  /\ Permutation keys (dict_keys x)
  /\ Sorted (str_le obj_str o) keys.
Proof.
  intros o keys.
  assert (P : Permutation keys (dict_keys x)) by apply sort_cmp_permutation.
  split; [| split].
  - unfold print_symbolic_results, sort_by_cmp_of_str.
    unfold bind at 1. fold o. fold keys.
    unfold bind at 1.
    rewrite symbolic_lines_run
      by (intros k Hk; eapply Permutation_in; [exact P | exact Hk]).
    reflexivity.
  - exact P.
  - apply sort_cmp_sorted. intros a b. apply str_compare_total.
Qed.

(** Under Python 3 the call of [list.sort] raises before a line is printed. *)
Lemma print_symbolic_results_python3 (x : dict) (w : world) :
  print_symbolic_results false obj_str x w = (Raised TypeError, w).
Proof. reflexivity. Qed.

End SymbolicResults.

(** ** Runs of the module *)

Example str_int_decimal :
  str_int 12 = "12" /\ str_int 0 = "0" /\ str_int (-7) = "-7".
Proof. repeat split. Qed.

Example print_parse_error_example :
  world_after (print_parse_error sample_obj_str 12 "R1 a b" false) fresh_world
  = {| stdout := "";
       stderr := "E: Parse error on line 12:" ++ nl ++ "R1 a b" ++ nl;
       np_options := default_printopts |}.
Proof. reflexivity. Qed.

Example print_analysis_tran_example :
  print_analysis sample_obj_str sample_obj_format_g sample_int_format_g
                 sample_obj_eq_str sample_obj_radd tran_complete fresh_world
  = (Returned VNone,
     {| stdout := ".tran tstep=1 tstop=10 tstart=0" ++ nl;
        stderr := "";
        np_options := default_printopts |}).
Proof. reflexivity. Qed.

Example print_analysis_array_type_example :
  print_analysis sample_obj_str sample_obj_format_g sample_int_format_g
                 sample_obj_eq_str sample_obj_radd array_type_sample fresh_world
  = (Raised ValueError, fresh_world)
  /\ analysis_well_formed sample_obj_format_g sample_int_format_g
                          sample_obj_eq_str sample_obj_radd array_type_sample
     = false.
Proof. split; reflexivity. Qed.

Example print_analysis_array_method_example :
  print_analysis sample_obj_str sample_obj_format_g sample_int_format_g
                 sample_obj_eq_str sample_obj_radd tran_array_method fresh_world
  = (Returned VNone,
     {| stdout := ".tran tstep=1 tstop=10 tstart=0" ++ "<object>" ++ nl;
        stderr := "";
        np_options := default_printopts |})
  /\ analysis_well_formed sample_obj_format_g sample_int_format_g
                          sample_obj_eq_str sample_obj_radd tran_array_method
     = true.
Proof. split; reflexivity. Qed.

Example sample_int_format_g_examples :
  sample_int_format_g 123456 = inr "123456"
  /\ sample_int_format_g 1000000 = inr "1e+06"
  /\ sample_int_format_g (-1234567) = inr "-1.23457e+06"
  /\ sample_int_format_g 9999995 = inr "1e+07"
  /\ sample_int_format_g (10 ^ 400) = inl OverflowError.
Proof. vm_compute. repeat split. Qed.

Example print_result_check_example :
  world_after
    (print_result_check VNone VNone VNone VNone sample_obj_str sample_obj_truth
                        [VStr "VN1"; VStr "I(V1)"] (VInt 0))
    fresh_world
  = {| stdout := "Warning: solution is heavvily dependent on gmin." ++ nl
                 ++ "Affected variables:" ++ nl
                 ++ "VN1" ++ nl ++ "I(V1)" ++ nl;
       stderr := "";
       np_options := default_printopts |}.
Proof. reflexivity. Qed.

Example print_symbolic_results_python2_example :
  print_symbolic_results true sample_obj_str symbolic_sample fresh_world
  = (Returned VNone,
     {| stdout := ("a" ++ tab ++ " = 1" ++ nl) ++ ("b" ++ tab ++ " = 2" ++ nl);
        stderr := "";
        np_options := default_printopts |}).
Proof. reflexivity. Qed.

(** C1, as stated, fails: handed a transient analysis that has no [method]
    entry, [print_analysis] writes the first part of the line and raises
    [KeyError]. *)
Lemma print_analysis_raises_KeyError :
  print_analysis sample_obj_str sample_obj_format_g sample_int_format_g
                 sample_obj_eq_str sample_obj_radd tran_without_method fresh_world
  = (Raised (KeyError (VStr "method")),
     {| stdout := ".tran tstep=1 tstop=10 tstart=0";
        stderr := "";
        np_options := default_printopts |}).
Proof. reflexivity. Qed.

(** C2 on Python 3: for the mapping with the keys [b] and [a],
    [print_symbolic_results] raises [TypeError] at the call of [list.sort]
    and prints no line, where the claim has two lines, [a] before [b]. *)
Theorem print_symbolic_results_python3_prints_nothing :
  print_symbolic_results false sample_obj_str symbolic_sample fresh_world
  = (Raised TypeError, fresh_world).
Proof. reflexivity. Qed.

(** C7 when the body of the [with] block raises: the exception leaves the
    block with the print options that [printoptions] has set, here a
    precision of 3 where it was 8 before the block; the options are not
    restored. *)
Theorem printoptions_not_restored_after_exception :
  let body : M unit := raise (OtherError 0) in
  let w' := world_after (printoptions precision_3 body) fresh_world in
  result_of (printoptions precision_3 body) fresh_world = Raised (OtherError 0)
  /\ precision (np_options fresh_world) = 8
  /\ precision (np_options w') = 3
  /\ np_options w' <> np_options fresh_world.
Proof.
  cbv zeta. repeat split. discriminate.
Qed.

(** The locale warning at a concrete import: [LANG] not set, and [LANG] set
    to [en_US.UTF-8]. *)
Lemma locale_warning_on_import_witness :
  stderr (world_after (module_import true sample_obj_str None) fresh_world)
  = ("W: " ++ locale_warning_1) ++ nl ++ ("W: " ++ locale_warning_2) ++ nl
  /\ module_import true sample_obj_str (Some "en_US.UTF-8") fresh_world
     = (Returned tt, fresh_world).
Proof.
  destruct (locale_warning_on_import true sample_obj_str fresh_world)
    as [Hunset Hset].
  split.
  - unfold world_after. rewrite Hunset. reflexivity.
  - apply Hset. discriminate.
Defined.


(** ** Symbolic transfer functions *)

Section TransferFunctions.
Variable PY2 : bool.
Variable obj_str : printopts -> nat -> string.
Variable list_str : printopts -> list value -> string.
Variable obj_items : nat -> exn + list value.

Lemma for_each_returns_forallb {A : Type} (p : A -> bool) (body : A -> M unit)
    (l : list A) :
  (forall x w, returns_normally (body x) w = p x) ->
  forall w, returns_normally (for_each l body) w = forallb p l.
Proof.
  intros Hbody. induction l as [|x l IH]; intros w; [reflexivity |].
  cbn [for_each forallb]. rewrite returns_normally_bind.
  specialize (Hbody x w). unfold returns_normally, result_of in Hbody.
  destruct (body x w) as [[u|e] w']; cbn [fst] in Hbody; rewrite <- Hbody.
  - apply IH.
  - reflexivity.
Qed.

Lemma forallb_permutation {A : Type} (p : A -> bool) (l l' : list A) :
  Permutation l l' -> forallb p l = forallb p l'.
Proof.
  induction 1 as [| x l l' _ IH | x y l | l l' l'' _ IH1 _ IH2]; cbn.
  - reflexivity.
  - now rewrite IH.
  - destruct (p x), (p y); reflexivity.
  - now rewrite IH1.
Qed.

(** X15: [print_symbolic_transfer_functions] returns exactly when it runs
    under Python 2 and every transfer function of the mapping has its
    [gain], [gain0], [poles] and [zeros] entries, the poles and the zeros
    being sequences; under Python 3, or with an entry missing, it raises. *)
Theorem print_symbolic_transfer_functions_returns :
  forall (x : tf_results) (w : world),
    returns_normally
      (print_symbolic_transfer_functions PY2 obj_str list_str obj_items x) w
    = PY2 && forallb (tf_key_complete obj_items x) (map fst x).
Proof.
  intros x w. unfold print_symbolic_transfer_functions.
  rewrite returns_normally_bind. unfold sort_by_cmp_of_str.
  destruct PY2; [| reflexivity].
  cbn [andb]. rewrite returns_normally_bind.
  match goal with
  | |- context [for_each ?l ?f w] =>
      pose proof (for_each_returns_forallb (tf_key_complete obj_items x) f l
                    (print_transfer_function_returns obj_str list_str obj_items x)
                    w) as Hloop;
      rewrite (forallb_permutation _ l (map fst x)) in Hloop
        by apply sort_cmp_permutation;
      unfold returns_normally, result_of in Hloop;
      destruct (for_each l f w) as [[u|e] w1]; cbn [fst] in Hloop
  end.
  - exact Hloop.
  - exact Hloop.
Qed.

Lemma transfer_functions_run (x : tf_results) (keys : list value) (w : world) :
  forallb (tf_key_complete obj_items x) keys = true ->
  for_each keys (print_transfer_function obj_str list_str obj_items x) w
  = (Returned tt,
     {| stdout := stdout w
                  ++ text_of (map (tf_block obj_str list_str obj_items
                                            (np_options w) x) keys);
        stderr := stderr w;
        np_options := np_options w |}).
Proof.
  revert w. induction keys as [|k keys IH]; intros w Hall.
  - cbn. rewrite append_empty_r. destruct w; reflexivity.
  - cbn [forallb] in Hall. apply andb_prop in Hall. destruct Hall as [Hk Hall].
    cbn [for_each]. unfold bind at 1.
    rewrite (print_transfer_function_run obj_str list_str obj_items x k w Hk).
    rewrite IH by exact Hall.
    cbn [map text_of fold_right stdout stderr np_options].
    rewrite !append_assoc. reflexivity.
Qed.

(** X16: under Python 2, for a mapping whose transfer functions all have
    their four entries, [print_symbolic_transfer_functions] writes one block
    for every key, the keys in ascending order of their [str()]: the line of
    the gain, the [DC:] line, then a line for every pole and a line for
    every zero, numbered from 0 ([P0:], [P1:], ..., [Z0:], ...).  It returns
    [None]. *)
Theorem print_symbolic_transfer_functions_python2 :
  forall (x : tf_results) (w : world),
    PY2 = true ->
    forallb (tf_key_complete obj_items x) (map fst x) = true ->
    let o := np_options w in
    let keys :=
      sort_cmp (fun a b => String.compare (py_str obj_str o a) (py_str obj_str o b))
               (map fst x) in
    print_symbolic_transfer_functions PY2 obj_str list_str obj_items x w
    = (Returned VNone,
       {| stdout := stdout w
                    ++ text_of (map (tf_block obj_str list_str obj_items o x) keys);
          stderr := stderr w;
          np_options := o |})
    /\ Permutation keys (map fst x)
    /\ Sorted (str_le obj_str o) keys.
Proof.
  intros x w Hpy Hall o keys.
  assert (P : Permutation keys (map fst x)) by apply sort_cmp_permutation.
  split; [| split].
  - unfold print_symbolic_transfer_functions, sort_by_cmp_of_str.
    rewrite Hpy. unfold bind at 1. fold o. fold keys.
    unfold bind at 1.
    rewrite transfer_functions_run
      by (rewrite (forallb_permutation _ keys (map fst x) P); exact Hall).
    reflexivity.
  - exact P.
  - apply sort_cmp_sorted. intros a b. apply str_compare_total.
Qed.

End TransferFunctions.

(** ** Runs of the printers *)

Lemma print_analysis_op_line_witness :
  print_analysis sample_obj_str sample_obj_format_g sample_int_format_g
                 sample_obj_eq_str sample_obj_radd op_sample fresh_world
  = (Returned VNone,
     {| stdout := ".op guess=True x0=None" ++ nl;
        stderr := "";
        np_options := default_printopts |}).
Proof.
  exact (print_analysis_op_line sample_obj_str sample_obj_format_g
           sample_int_format_g sample_obj_eq_str sample_obj_radd
           op_sample fresh_world eq_refl).
Defined.

Lemma print_analysis_dc_line_witness :
  print_analysis sample_obj_str sample_obj_format_g sample_int_format_g
                 sample_obj_eq_str sample_obj_radd dc_sample fresh_world
  = (Returned VNone,
     {| stdout := ".dc V1 start=0 stop=5 step=1 type=LINEAR" ++ nl;
        stderr := "";
        np_options := default_printopts |}).
Proof.
  exact (print_analysis_dc_line sample_obj_str sample_obj_format_g
           sample_int_format_g sample_obj_eq_str sample_obj_radd dc_sample
           (VStr "V1") (VInt 0) (VInt 5) (VInt 1) (VStr "LINEAR") "0" "5" "1"
           fresh_world
           eq_refl eq_refl eq_refl eq_refl eq_refl eq_refl
           eq_refl eq_refl eq_refl).
Defined.

Lemma print_analysis_tran_line_witness :
  print_analysis sample_obj_str sample_obj_format_g sample_int_format_g
                 sample_obj_eq_str sample_obj_radd tran_complete fresh_world
  = (Returned VNone,
     {| stdout := ".tran tstep=1 tstop=10 tstart=0" ++ nl;
        stderr := "";
        np_options := default_printopts |}).
Proof.
  exact (print_analysis_tran_line sample_obj_str sample_obj_format_g
           sample_int_format_g sample_obj_eq_str sample_obj_radd tran_complete
           (VInt 1) (VInt 10) (VInt 0) VNone "" fresh_world
           eq_refl eq_refl eq_refl eq_refl eq_refl eq_refl).
Defined.

Lemma print_analysis_tran_partial_line_witness :
  let partial :=
    {| stdout := ".tran tstep=1 tstop=10 tstart=0";
       stderr := "";
       np_options := default_printopts |} in
  print_analysis sample_obj_str sample_obj_format_g sample_int_format_g
                 sample_obj_eq_str sample_obj_radd
                 tran_without_method fresh_world
  = (Raised (KeyError (VStr "method")), partial)
  /\ print_analysis sample_obj_str sample_obj_format_g sample_int_format_g
                    sample_obj_eq_str sample_obj_radd
                    tran_bad_method fresh_world
     = (Raised TypeError, partial).
Proof.
  split.
  - exact (proj1 (print_analysis_tran_partial_line sample_obj_str
                    sample_obj_format_g sample_int_format_g sample_obj_eq_str
                    sample_obj_radd tran_without_method
                    (VInt 1) (VInt 10) (VInt 0) fresh_world
                    eq_refl eq_refl eq_refl eq_refl) eq_refl).
  - exact (proj2 (print_analysis_tran_partial_line sample_obj_str
                    sample_obj_format_g sample_int_format_g sample_obj_eq_str
                    sample_obj_radd tran_bad_method
                    (VInt 1) (VInt 10) (VInt 0) fresh_world
                    eq_refl eq_refl eq_refl eq_refl)
                 (VInt 2) TypeError eq_refl eq_refl).
Defined.

Lemma print_analysis_shooting_line_witness :
  print_analysis sample_obj_str sample_obj_format_g sample_int_format_g
                 sample_obj_eq_str sample_obj_radd shooting_sample fresh_world
  = (Returned VNone,
     {| stdout := ".shooting period=1 method=shooting points=100 autonomous= False"
                  ++ nl;
        stderr := "";
        np_options := default_printopts |}).
Proof.
  exact (print_analysis_shooting_line sample_obj_str sample_obj_format_g
           sample_int_format_g sample_obj_eq_str sample_obj_radd
           shooting_sample
           (VInt 1) (VStr "shooting") (VInt 100) VNone (VBool false) fresh_world
           eq_refl eq_refl eq_refl eq_refl eq_refl eq_refl).
Defined.

Lemma print_analysis_other_type_is_silent_witness :
  print_analysis sample_obj_str sample_obj_format_g sample_int_format_g
                 sample_obj_eq_str sample_obj_radd ac_sample fresh_world
  = (Returned VNone, fresh_world).
Proof.
  exact (print_analysis_other_type_is_silent sample_obj_str sample_obj_format_g
           sample_int_format_g sample_obj_eq_str sample_obj_radd
           ac_sample (VStr "ac") fresh_world eq_refl eq_refl).
Defined.

Lemma print_analysis_without_type_witness :
  print_analysis sample_obj_str sample_obj_format_g sample_int_format_g
                 sample_obj_eq_str sample_obj_radd [] fresh_world
  = (Raised (KeyError (VStr "type")), fresh_world).
Proof.
  exact (print_analysis_without_type sample_obj_str sample_obj_format_g
           sample_int_format_g sample_obj_eq_str sample_obj_radd
           [] fresh_world eq_refl).
Defined.


Lemma printoptions_normal_exit_witness :
  printoptions precision_3 (stdout_write "1.23") fresh_world
  = (Returned tt,
     {| stdout := "1.23"; stderr := ""; np_options := default_printopts |}).
Proof.
  exact (printoptions_normal_exit unit precision_3 (stdout_write "1.23")
           fresh_world
           {| stdout := "1.23";
              stderr := "";
              np_options := set_options precision_3 default_printopts |}
           tt eq_refl).
Defined.

Lemma print_symbolic_transfer_functions_python2_witness :
  print_symbolic_transfer_functions true sample_obj_str sample_list_str
                                    sample_obj_items tf_sample fresh_world
  = (Returned VNone,
     {| stdout := ("vo/vi = R2/(R1 + R2)" ++ nl)
                  ++ (tab ++ "DC: R2/(R1 + R2)" ++ nl)
                  ++ (tab ++ "P0: -1" ++ nl)
                  ++ (tab ++ "P1: -20" ++ nl);
        stderr := "";
        np_options := default_printopts |}).
Proof.
  exact (proj1 (print_symbolic_transfer_functions_python2 true sample_obj_str
                  sample_list_str sample_obj_items tf_sample fresh_world
                  eq_refl eq_refl)).
Defined.
